(** * Initial form values of the patient-registration form

    A shallow embedding of [patient-registration-hooks] (the hooks that
    assemble the initial values of the registration form) and of the effect
    of [PatientRegistration] that copies the master-index values over the
    locally reconciled ones.

    React state is modelled by explicit state passing: every [useEffect]
    body is a function from the values the hooks returned at that render
    (the record [Sources]) and the current state to the next state, together
    with the trace of what the body did (queue lookup, console output,
    rejected promise).  JavaScript exceptions are the [Thrown] case of
    [Outcome]. *)

From Stdlib Require Import ZArith Lia List Ascii String Permutation.
From stdpp Require Import gmap strings list fin_maps.
Import ListNotations.

Local Open Scope string_scope.
Local Open Scope Z_scope.

(** ** JavaScript values *)

Module Js.

(** The values the REST resources carry in the places the hooks read:
    scalars, [null], [undefined] and references to a resource (an object
    with a [uuid]). *)
Inductive Value :=
| Undefined
| Null
| Str (s : string)
| Num (z : Z)
| Bool (b : bool)
| Ref (uuid display : string).

(** [typeof v === 'object'] ([typeof null] is ['object']). *)
Definition typeof_object (v : Value) : bool :=
  match v with
  | Null | Ref _ _ => true
  | _ => false
  end.

(** [v?.uuid] for the values above. *)
Definition opt_uuid (v : Value) : Value :=
  match v with
  | Ref u _ => Str u
  | _ => Undefined
  end.

(** A JavaScript number as far as the hooks compute with it: an integer
    or [NaN]. *)
Inductive number :=
| Int (z : Z)
| NaN.

(** [Math.floor(n / 12)]. *)
Definition floor_div (n : number) (d : Z) : number :=
  match n with
  | Int z => Int (z / d)
  | NaN => NaN
  end.

(** [n % d]: the remainder takes the sign of the dividend. *)
Definition rem (n : number) (d : Z) : number :=
  match n with
  | Int z => Int (Z.rem z d)
  | NaN => NaN
  end.

(** Truthiness of a string that may be [undefined] or [null]. *)
Definition truthy (s : option string) : bool :=
  match s with
  | Some s => negb (String.eqb s "")
  | None => false
  end.

Inductive Error :=
| TypeError (msg : string).

(** The result of evaluating an expression that may throw. *)
Inductive Outcome (A : Type) :=
| Returned (a : A)
| Thrown (e : Error).
Arguments Returned {A} a.
Arguments Thrown {A} e.

Definition bind {A B} (o : Outcome A) (k : A -> Outcome B) : Outcome B :=
  match o with
  | Returned a => k a
  | Thrown e => Thrown e
  end.

End Js.

Notation "'let*' x ':=' c1 'in' c2" := (Js.bind c1 (fun x => c2))
  (at level 10, x name, c1 at level 100, c2 at level 200).

(** ** Regular expressions

    A backtracking matcher for the fragment of JavaScript regular
    expressions this program runs: character classes, sequence, ordered
    alternation, greedy [?], greedy [*] and [+] over a class, lookahead,
    [^], [$] (no [m] flag) and [\b].  The continuation receives the
    character before the current position and the rest of the input. *)

Module Regex.

Definition cls := ascii -> bool.

Definition code (c : ascii) : N := N_of_ascii c.

Definition range (lo hi : N) : cls :=
  fun c => (N.leb lo (code c) && N.leb (code c) hi)%bool.
Definition only (a : ascii) : cls := fun c => Ascii.eqb a c.
Definition either (p q : cls) : cls := fun c => (p c || q c)%bool.
Definition non (p : cls) : cls := fun c => negb (p c).

Definition digit : cls := range 48 57.          (* \d *)
Definition upper : cls := range 65 90.          (* A-Z *)
Definition lower : cls := range 97 122.         (* a-z *)
Definition word : cls :=                        (* \w *)
  either (either upper lower) (either digit (only "_")).

Inductive re :=
| Chr (p : cls)
| Eps
| Seq (r1 r2 : re)
| Alt (r1 r2 : re)
| Opt (r : re)
| Star (p : cls)
| Plus (p : cls)
| Ahead (r : re)
| NotAhead (r : re)
| Bos
| Eos
| WordBoundary.

(** Greedy repetition of a class: the longest run first, then shorter
    ones while the continuation fails. *)
Fixpoint many {R} (p : cls) (prev : option ascii) (s : list ascii)
  (k : option ascii -> list ascii -> option R) : option R :=
  match s with
  | c :: s' =>
      if p c then
        match many p (Some c) s' k with
        | Some x => Some x
        | None => k prev s
        end
      else k prev s
  | [] => k prev s
  end.

Definition is_word (c : option ascii) : bool :=
  match c with Some c => word c | None => false end.

Fixpoint run {R} (r : re) (prev : option ascii) (s : list ascii)
  (k : option ascii -> list ascii -> option R) : option R :=
  match r with
  | Chr p =>
      match s with
      | c :: s' => if p c then k (Some c) s' else None
      | [] => None
      end
  | Eps => k prev s
  | Seq r1 r2 => run r1 prev s (fun prev' s' => run r2 prev' s' k)
  | Alt r1 r2 =>
      match run r1 prev s k with
      | Some x => Some x
      | None => run r2 prev s k
      end
  | Opt r1 =>
      match run r1 prev s k with
      | Some x => Some x
      | None => k prev s
      end
  | Star p => many p prev s k
  | Plus p =>
      match s with
      | c :: s' => if p c then many p (Some c) s' k else None
      | [] => None
      end
  | Ahead r1 =>
      match run r1 prev s (fun _ _ => Some tt) with
      | Some _ => k prev s
      | None => None
      end
  | NotAhead r1 =>
      match run r1 prev s (fun _ _ => Some tt) with
      | Some _ => None
      | None => k prev s
      end
  | Bos => match prev with None => k prev s | Some _ => None end
  | Eos => match s with [] => k prev s | _ :: _ => None end
  | WordBoundary =>
      if xorb (is_word prev) (is_word (head s)) then k prev s else None
  end.

(** A match starting at the current position: the character before the
    end of the match and the input after it. *)
Definition exec (r : re) (prev : option ascii) (s : list ascii)
  : option (option ascii * list ascii) :=
  run r prev s (fun prev' s' => Some (prev', s')).

(** [re.test(s)]: a match at some position. *)
Fixpoint test_from (r : re) (prev : option ascii) (s : list ascii) : bool :=
  match exec r prev s with
  | Some _ => true
  | None =>
      match s with
      | c :: s' => test_from r (Some c) s'
      | [] => false
      end
  end.

Definition test (r : re) (s : string) : bool :=
  test_from r None (list_ascii_of_string s).

(** [s.match(re) || []] for a global [re]: the matches from left to
    right; after an empty match, and where nothing matches, the search
    moves on by one character.  Every round consumes a character, so
    [fuel] above the length of the input is never used up. *)
Fixpoint match_all (fuel : nat) (r : re) (prev : option ascii) (s : list ascii)
  : list (list ascii) :=
  match fuel, s with
  | S fuel', c :: s' =>
      match exec r prev s with
      | Some (prev', rest) =>
          let n := (length s - length rest)%nat in
          match n with
          | O => [] :: match_all fuel' r (Some c) s'
          | S _ => firstn n s :: match_all fuel' r prev' rest
          end
      | None => match_all fuel' r (Some c) s'
      end
  | _, _ => []
  end.

(** A literal string and a counted repetition. *)
Fixpoint lit (l : list ascii) : re :=
  match l with
  | [] => Eps
  | c :: l' => Seq (Chr (only c)) (lit l')
  end.

Fixpoint times (n : nat) (r : re) : re :=
  match n with
  | O => Eps
  | S n' => Seq r (times n' r)
  end.

Fixpoint alts (rs : list re) : re :=
  match rs with
  | [] => NotAhead Eps
  | [r] => r
  | r :: rs' => Alt r (alts rs')
  end.

Fixpoint seqs (rs : list re) : re :=
  match rs with
  | [] => Eps
  | [r] => r
  | r :: rs' => Seq r (seqs rs')
  end.

End Regex.

(** ** Strings *)

Module Str.

(** [toLowerCase] and [toUpperCase] of a character; only the letters
    [A-Z] and [a-z] have a case here. *)
Definition toLower (c : ascii) : ascii :=
  if Regex.upper c then ascii_of_N (Regex.code c + 32) else c.
Definition toUpper (c : ascii) : ascii :=
  if Regex.lower c then ascii_of_N (Regex.code c - 32) else c.

Definition toLowerCase (w : list ascii) : list ascii := map toLower w.

(** [s.split(sep)] for a one-character separator. *)
Fixpoint split_from (sep : ascii) (cur : list ascii) (s : list ascii)
  : list (list ascii) :=
  match s with
  | [] => [cur]
  | c :: s' =>
      if Ascii.eqb c sep then cur :: split_from sep [] s'
      else split_from sep (cur ++ [c]) s'
  end.

Definition split (sep : ascii) (s : string) : list string :=
  map string_of_list_ascii (split_from sep [] (list_ascii_of_string s)).

(** The maximal runs of characters of a class, from left to right; [cur]
    is the run being read. *)
Definition flush (cur : list ascii) : list (list ascii) :=
  match cur with [] => [] | _ :: _ => [cur] end.

Fixpoint runs_from (p : ascii -> bool) (cur : list ascii) (l : list ascii)
  : list (list ascii) :=
  match l with
  | [] => flush cur
  | c :: l' =>
      if p c then runs_from p (cur ++ [c]) l'
      else flush cur ++ runs_from p [] l'
  end.

Definition runs (p : ascii -> bool) (l : list ascii) : list (list ascii) :=
  runs_from p [] l.

(** The words of a name as a reader sees them: what stands between
    blanks, whatever the number of blanks. *)
Definition blankSeparated (name : string) : list (list ascii) :=
  runs (fun c => negb (Ascii.eqb c " ")) (list_ascii_of_string name).

End Str.

(** ** lodash's [camelCase]

    [camelCase] comes from lodash, not from this repository.  It is
    embedded here as lodash 4 defines it, for names made of ASCII
    characters: on those [deburr] changes nothing, and the astral, emoji
    and "misc" classes of [reUnicodeWord] match no character, so that
    [rsMiscLower] is [a-z] and [rsMiscUpper] is [A-Z]. *)

Module Lodash.
Import Regex.

(** [reApos = /['’]/g]. *)
Definition apos : cls := only "'".

(** [reAsciiWord = /[^\x00-\x2f\x3a-\x40\x5b-\x60\x7b-\x7f]+/g]. *)
Definition asciiWordChar : cls :=
  non (either (either (range 0 47) (range 58 64))
               (either (range 91 96) (range 123 127))).

(** [reHasUnicodeWord =
    /[a-z][A-Z]|[A-Z]{2}[a-z]|[0-9][a-zA-Z]|[a-zA-Z][0-9]|[^a-zA-Z0-9 ]/]. *)
Definition letter : cls := either lower upper.
Definition plainChar : cls :=                   (* [a-zA-Z0-9 ] *)
  either (either lower upper) (either digit (only " ")).
Definition reHasUnicodeWord : re :=
  alts [ Seq (Chr lower) (Chr upper);
         Seq (times 2 (Chr upper)) (Chr lower);
         Seq (Chr digit) (Chr letter);
         Seq (Chr letter) (Chr digit);
         Chr (non plainChar) ].

(** [rsBreak]: the non-characters, punctuation and spaces below
    [\x80]. *)
Definition rsBreak : cls :=
  either (either (range 0 47) (range 58 64))
        (either (range 91 96) (range 123 127)).

Definition s (x : string) : re := lit (list_ascii_of_string x).

(** [rsOptContrLower = (?:['’](?:d|ll|m|re|s|t|ve))?] and its upper
    case twin. *)
Definition rsOptContrLower : re :=
  Opt (Seq (Chr apos) (alts [s "d"; s "ll"; s "m"; s "re"; s "s"; s "t"; s "ve"])).
Definition rsOptContrUpper : re :=
  Opt (Seq (Chr apos) (alts [s "D"; s "LL"; s "M"; s "RE"; s "S"; s "T"; s "VE"])).

(** [rsOrdLower = \d*(?:1st|2nd|3rd|(?![123])\dth)(?=\b|[A-Z_])] and
    [rsOrdUpper = \d*(?:1ST|2ND|3RD|(?![123])\dTH)(?=\b|[a-z_])]. *)
Definition one23 : cls := range 49 51.
Definition rsOrdLower : re :=
  seqs [ Star digit;
         alts [s "1st"; s "2nd"; s "3rd";
               seqs [NotAhead (Chr one23); Chr digit; s "th"]];
         Ahead (Alt WordBoundary (Chr (either upper (only "_")))) ].
Definition rsOrdUpper : re :=
  seqs [ Star digit;
         alts [s "1ST"; s "2ND"; s "3RD";
               seqs [NotAhead (Chr one23); Chr digit; s "TH"]];
         Ahead (Alt WordBoundary (Chr (either lower (only "_")))) ].

(** [reUnicodeWord], alternative by alternative. *)
Definition reUnicodeWord : re :=
  alts [ seqs [Opt (Chr upper); Plus lower; rsOptContrLower;
               Ahead (alts [Chr rsBreak; Chr upper; Eos])];
         seqs [Plus upper; rsOptContrUpper;
               Ahead (alts [Chr rsBreak; Seq (Chr upper) (Chr lower); Eos])];
         seqs [Opt (Chr upper); Plus lower; rsOptContrLower];
         seqs [Plus upper; rsOptContrUpper];
         rsOrdUpper;
         rsOrdLower;
         Plus digit ].

Definition hasUnicodeWord (l : list ascii) : bool :=
  test_from reHasUnicodeWord None l.

(** [asciiWords]: [string.match(reAsciiWord) || []], the maximal runs of
    [reAsciiWord] characters. *)
Definition asciiWords (l : list ascii) : list (list ascii) :=
  Str.runs asciiWordChar l.

Definition unicodeWords (l : list ascii) : list (list ascii) :=
  match_all (S (length l)) reUnicodeWord None l.

(** [words(string)] without a pattern. *)
Definition words (l : list ascii) : list (list ascii) :=
  if hasUnicodeWord l then unicodeWords l else asciiWords l.

(** [capitalize(word) = upperFirst(toString(word).toLowerCase())]. *)
Definition upperFirst (w : list ascii) : list ascii :=
  match w with
  | [] => []
  | c :: w' => Str.toUpper c :: w'
  end.
Definition capitalize (w : list ascii) : list ascii :=
  upperFirst (Str.toLowerCase w).

(** The callback of [camelCase]; [first] is [index === 0]. *)
Definition camelStep (result : list ascii) (first : bool) (w : list ascii)
  : list ascii :=
  let w := Str.toLowerCase w in
  result ++ (if first then w else capitalize w).

(** [arrayReduce(words, callback, '')]. *)
Fixpoint compound (result : list ascii) (first : bool) (ws : list (list ascii))
  : list ascii :=
  match ws with
  | [] => result
  | w :: ws' => compound (camelStep result first w) false ws'
  end.

(** [deburr(string).replace(reApos, '')] on ASCII input. *)
Definition dropApos (l : list ascii) : list ascii :=
  List.filter (fun c => negb (apos c)) l.

Definition camelCase (name : string) : string :=
  string_of_list_ascii
    (compound [] true (words (dropApos (list_ascii_of_string name)))).

End Lodash.

(** ** The data model *)

(** A [Date] object is its time value: milliseconds since the epoch, or
    [None] for an invalid date. *)
Definition Date := option Z.

Inductive TimeFormat := AM | PM.

Record IdentifierSource := { sourceUuid : string; sourceName : string }.

Record PatientIdentifierValue := {
  identifierUuid : string;
  preferred : bool;
  initialValue : string;
  identifierValue : string;
  identifierTypeUuid : string;
  identifierName : string;
  required : bool;
  selectedSource : option IdentifierSource;   (* [None] is [null] *)
  autoGeneration : bool;
}.

Record RelationshipValue := {
  relatedPersonUuid : string;
  relationshipType : string;
  relationshipUuid : string;
}.

(** [FormValues].  [birthdate] and [nonCodedCauseOfDeath] are [None] for
    [null]; [deathDate], [deathTime] and [deathCause] are [None] for
    [undefined]; [attributes] and [obs] are [None] while the object has no
    such key; [others] holds the keys outside the declared interface (the
    phone attribute is spread into the top level under its attribute-type
    uuid). *)
Record FormValues := {
  patientUuid : string;
  givenName : string;
  middleName : string;
  familyName : string;
  additionalGivenName : string;
  additionalMiddleName : string;
  additionalFamilyName : string;
  addNameInLocalLanguage : bool;
  gender : string;
  birthdate : option string;
  yearsEstimated : Js.number;
  monthsEstimated : Js.number;
  birthdateEstimated : bool;
  telephoneNumber : string;
  isDead : bool;
  deathDate : option Date;
  deathTime : option string;
  deathTimeFormat : TimeFormat;
  deathCause : option string;
  nonCodedCauseOfDeath : option string;
  relationships : list RelationshipValue;
  identifiers : gmap string PatientIdentifierValue;
  address : gmap string string;
  attributes : option (gmap string Js.Value);
  obs : option (gmap string Js.Value);
  others : gmap string Js.Value;
}.

(** The object literal passed to [useState] in [useInitialFormValuesLocal]
    and in [useMpiInitialFormValues]; [uuid] is the result of [v4()]. *)
Definition defaultFormValues (uuid : string) : FormValues := {|
  patientUuid := uuid;
  givenName := "";
  middleName := "";
  familyName := "";
  additionalGivenName := "";
  additionalMiddleName := "";
  additionalFamilyName := "";
  addNameInLocalLanguage := false;
  gender := "";
  birthdate := None;
  yearsEstimated := Js.Int 0;
  monthsEstimated := Js.Int 0;
  birthdateEstimated := false;
  telephoneNumber := "";
  isDead := false;
  deathDate := None;
  deathTime := None;
  deathTimeFormat := AM;
  deathCause := Some "";
  nonCodedCauseOfDeath := Some "";
  relationships := [];
  identifiers := ∅;
  address := ∅;
  attributes := None;
  obs := None;
  others := ∅;
|}.

(** *** Object spreads

    [{ ...fv, key: value, ... }] for the keys each effect writes. *)

(** [{ ...fv, address }]. *)
Definition withAddress (fv : FormValues) (a : gmap string string) : FormValues := {|
  patientUuid := patientUuid fv;
  givenName := givenName fv;
  middleName := middleName fv;
  familyName := familyName fv;
  additionalGivenName := additionalGivenName fv;
  additionalMiddleName := additionalMiddleName fv;
  additionalFamilyName := additionalFamilyName fv;
  addNameInLocalLanguage := addNameInLocalLanguage fv;
  gender := gender fv;
  birthdate := birthdate fv;
  yearsEstimated := yearsEstimated fv;
  monthsEstimated := monthsEstimated fv;
  birthdateEstimated := birthdateEstimated fv;
  telephoneNumber := telephoneNumber fv;
  isDead := isDead fv;
  deathDate := deathDate fv;
  deathTime := deathTime fv;
  deathTimeFormat := deathTimeFormat fv;
  deathCause := deathCause fv;
  nonCodedCauseOfDeath := nonCodedCauseOfDeath fv;
  relationships := relationships fv;
  identifiers := identifiers fv;
  address := a;
  attributes := attributes fv;
  obs := obs fv;
  others := others fv;
|}.

(** [{ ...fv, ...o }] for an object [o] of keys outside the interface. *)
Definition withOthers (fv : FormValues) (o : gmap string Js.Value) : FormValues := {|
  patientUuid := patientUuid fv;
  givenName := givenName fv;
  middleName := middleName fv;
  familyName := familyName fv;
  additionalGivenName := additionalGivenName fv;
  additionalMiddleName := additionalMiddleName fv;
  additionalFamilyName := additionalFamilyName fv;
  addNameInLocalLanguage := addNameInLocalLanguage fv;
  gender := gender fv;
  birthdate := birthdate fv;
  yearsEstimated := yearsEstimated fv;
  monthsEstimated := monthsEstimated fv;
  birthdateEstimated := birthdateEstimated fv;
  telephoneNumber := telephoneNumber fv;
  isDead := isDead fv;
  deathDate := deathDate fv;
  deathTime := deathTime fv;
  deathTimeFormat := deathTimeFormat fv;
  deathCause := deathCause fv;
  nonCodedCauseOfDeath := nonCodedCauseOfDeath fv;
  relationships := relationships fv;
  identifiers := identifiers fv;
  address := address fv;
  attributes := attributes fv;
  obs := obs fv;
  others := o ∪ others fv;
|}.

(** [{ ...fv, birthdateEstimated, yearsEstimated, monthsEstimated }]. *)
Definition withBirthdateEstimate (fv : FormValues) (estimated : bool)
  (years months : Js.number) : FormValues := {|
  patientUuid := patientUuid fv;
  givenName := givenName fv;
  middleName := middleName fv;
  familyName := familyName fv;
  additionalGivenName := additionalGivenName fv;
  additionalMiddleName := additionalMiddleName fv;
  additionalFamilyName := additionalFamilyName fv;
  addNameInLocalLanguage := addNameInLocalLanguage fv;
  gender := gender fv;
  birthdate := birthdate fv;
  yearsEstimated := years;
  monthsEstimated := months;
  birthdateEstimated := estimated;
  telephoneNumber := telephoneNumber fv;
  isDead := isDead fv;
  deathDate := deathDate fv;
  deathTime := deathTime fv;
  deathTimeFormat := deathTimeFormat fv;
  deathCause := deathCause fv;
  nonCodedCauseOfDeath := nonCodedCauseOfDeath fv;
  relationships := relationships fv;
  identifiers := identifiers fv;
  address := address fv;
  attributes := attributes fv;
  obs := obs fv;
  others := others fv;
|}.

(** [{ ...fv, isDead, deathDate, deathTime, deathTimeFormat, deathCause,
    nonCodedCauseOfDeath }]. *)
Definition withDeathInfo (fv : FormValues) (d : bool) (date : option Date)
  (time : option string)
  (format : TimeFormat) (cause nonCoded : option string) : FormValues := {|
  patientUuid := patientUuid fv;
  givenName := givenName fv;
  middleName := middleName fv;
  familyName := familyName fv;
  additionalGivenName := additionalGivenName fv;
  additionalMiddleName := additionalMiddleName fv;
  additionalFamilyName := additionalFamilyName fv;
  addNameInLocalLanguage := addNameInLocalLanguage fv;
  gender := gender fv;
  birthdate := birthdate fv;
  yearsEstimated := yearsEstimated fv;
  monthsEstimated := monthsEstimated fv;
  birthdateEstimated := birthdateEstimated fv;
  telephoneNumber := telephoneNumber fv;
  isDead := d;
  deathDate := date;
  deathTime := time;
  deathTimeFormat := format;
  deathCause := cause;
  nonCodedCauseOfDeath := nonCoded;
  relationships := relationships fv;
  identifiers := identifiers fv;
  address := address fv;
  attributes := attributes fv;
  obs := obs fv;
  others := others fv;
|}.

(** [{ ...fv, relationships }]. *)
Definition withRelationships (fv : FormValues) (r : list RelationshipValue)
  : FormValues := {|
  patientUuid := patientUuid fv;
  givenName := givenName fv;
  middleName := middleName fv;
  familyName := familyName fv;
  additionalGivenName := additionalGivenName fv;
  additionalMiddleName := additionalMiddleName fv;
  additionalFamilyName := additionalFamilyName fv;
  addNameInLocalLanguage := addNameInLocalLanguage fv;
  gender := gender fv;
  birthdate := birthdate fv;
  yearsEstimated := yearsEstimated fv;
  monthsEstimated := monthsEstimated fv;
  birthdateEstimated := birthdateEstimated fv;
  telephoneNumber := telephoneNumber fv;
  isDead := isDead fv;
  deathDate := deathDate fv;
  deathTime := deathTime fv;
  deathTimeFormat := deathTimeFormat fv;
  deathCause := deathCause fv;
  nonCodedCauseOfDeath := nonCodedCauseOfDeath fv;
  relationships := r;
  identifiers := identifiers fv;
  address := address fv;
  attributes := attributes fv;
  obs := obs fv;
  others := others fv;
|}.

(** [{ ...fv, identifiers }]. *)
Definition withIdentifiers (fv : FormValues)
  (i : gmap string PatientIdentifierValue) : FormValues := {|
  patientUuid := patientUuid fv;
  givenName := givenName fv;
  middleName := middleName fv;
  familyName := familyName fv;
  additionalGivenName := additionalGivenName fv;
  additionalMiddleName := additionalMiddleName fv;
  additionalFamilyName := additionalFamilyName fv;
  addNameInLocalLanguage := addNameInLocalLanguage fv;
  gender := gender fv;
  birthdate := birthdate fv;
  yearsEstimated := yearsEstimated fv;
  monthsEstimated := monthsEstimated fv;
  birthdateEstimated := birthdateEstimated fv;
  telephoneNumber := telephoneNumber fv;
  isDead := isDead fv;
  deathDate := deathDate fv;
  deathTime := deathTime fv;
  deathTimeFormat := deathTimeFormat fv;
  deathCause := deathCause fv;
  nonCodedCauseOfDeath := nonCodedCauseOfDeath fv;
  relationships := relationships fv;
  identifiers := i;
  address := address fv;
  attributes := attributes fv;
  obs := obs fv;
  others := others fv;
|}.

(** [{ ...fv, attributes }]. *)
Definition withAttributes (fv : FormValues) (a : gmap string Js.Value) : FormValues := {|
  patientUuid := patientUuid fv;
  givenName := givenName fv;
  middleName := middleName fv;
  familyName := familyName fv;
  additionalGivenName := additionalGivenName fv;
  additionalMiddleName := additionalMiddleName fv;
  additionalFamilyName := additionalFamilyName fv;
  addNameInLocalLanguage := addNameInLocalLanguage fv;
  gender := gender fv;
  birthdate := birthdate fv;
  yearsEstimated := yearsEstimated fv;
  monthsEstimated := monthsEstimated fv;
  birthdateEstimated := birthdateEstimated fv;
  telephoneNumber := telephoneNumber fv;
  isDead := isDead fv;
  deathDate := deathDate fv;
  deathTime := deathTime fv;
  deathTimeFormat := deathTimeFormat fv;
  deathCause := deathCause fv;
  nonCodedCauseOfDeath := nonCodedCauseOfDeath fv;
  relationships := relationships fv;
  identifiers := identifiers fv;
  address := address fv;
  attributes := Some a;
  obs := obs fv;
  others := others fv;
|}.

(** [{ ...fv, obs }]. *)
Definition withObs (fv : FormValues) (o : gmap string Js.Value) : FormValues := {|
  patientUuid := patientUuid fv;
  givenName := givenName fv;
  middleName := middleName fv;
  familyName := familyName fv;
  additionalGivenName := additionalGivenName fv;
  additionalMiddleName := additionalMiddleName fv;
  additionalFamilyName := additionalFamilyName fv;
  addNameInLocalLanguage := addNameInLocalLanguage fv;
  gender := gender fv;
  birthdate := birthdate fv;
  yearsEstimated := yearsEstimated fv;
  monthsEstimated := monthsEstimated fv;
  birthdateEstimated := birthdateEstimated fv;
  telephoneNumber := telephoneNumber fv;
  isDead := isDead fv;
  deathDate := deathDate fv;
  deathTime := deathTime fv;
  deathTimeFormat := deathTimeFormat fv;
  deathCause := deathCause fv;
  nonCodedCauseOfDeath := nonCodedCauseOfDeath fv;
  relationships := relationships fv;
  identifiers := identifiers fv;
  address := address fv;
  attributes := attributes fv;
  obs := Some o;
  others := others fv;
|}.

(** *** The resources the hooks read *)

Record FhirIdentifier := { fi_system : string; fi_value : string }.

(** [fhir.Patient], as far as this file reads it. *)
Record FhirPatient := {
  fhirId : string;
  birthDate : string;
  identifier : option (list FhirIdentifier);
}.

Record OpenmrsResource := { resourceUuid : string; resourceDisplay : string }.

Record DeathInfoResults := {
  di_uuid : string;
  di_display : string;
  causeOfDeath : option OpenmrsResource;      (* [None] is [null] *)
  dead : bool;
  di_deathDate : option string;               (* [None] is [null] *)
  causeOfDeathNonCoded : option string;       (* [None] is [null] *)
}.

Record AttributeType := { at_uuid : string; at_display : string; at_format : string }.

Record PersonAttributeResponse := {
  pa_uuid : string;
  pa_display : string;
  attributeType : AttributeType;
  pa_value : Js.Value;
}.

Record IdentifierType := { it_uuid : string; it_required : bool; it_name : string }.

Record PatientIdentifierResponse := {
  pi_uuid : string;
  pi_identifier : string;
  identifierType : IdentifierType;
  pi_preferred : bool;
}.

Record Obs := { concept : OpenmrsResource; obs_value : Js.Value }.

Record Encounter := { encounterDatetime : string; enc_obs : list Obs }.

(** [_patientRegistrationData] of a queued registration.  The declared type
    makes both fields mandatory; the hooks test them at run time, so both
    may be missing here. *)
Record PatientRegistrationData := {
  formValues : option FormValues;
  initialAddressFieldValues : option (gmap string string);
}.

Record PatientRegistration := {
  _patientRegistrationData : PatientRegistrationData;
}.

(** The part of [RegistrationConfig] the hooks read. *)
Record RegistrationConfig := {
  freeTextFieldConceptUuid : string;
  phonePersonAttributeUuid : string;           (* fieldConfigurations.phone *)
  encounterTypeUuid : option string;           (* registrationObs *)
}.

(** ** The offline queue *)

(** [item._patientRegistrationData.formValues.patientUuid === patientUuid]:
    reading [patientUuid] of a missing [formValues] throws. *)
Definition matchesPatient (uuid : string) (item : PatientRegistration)
  : Js.Outcome bool :=
  match formValues (_patientRegistrationData item) with
  | Some fv => Js.Returned (String.eqb (patientUuid fv) uuid)
  | None =>
      Js.Thrown (Js.TypeError "Cannot read properties of undefined (reading 'patientUuid')")
  end.

(** [items.find(predicate)]: the first item the predicate accepts, or
    [undefined]; an exception of the predicate ends the search. *)
Fixpoint find (pred : PatientRegistration -> Js.Outcome bool)
  (items : list PatientRegistration) : Js.Outcome (option PatientRegistration) :=
  match items with
  | [] => Js.Returned None
  | item :: rest =>
      let* hit := pred item in
      if hit then Js.Returned (Some item) else find pred rest
  end.

(** [getPatientRegistration]; [items] is what [getSynchronizationItems]
    resolved to. *)
Definition getPatientRegistration (items : list PatientRegistration) (uuid : string)
  : Js.Outcome (option PatientRegistration) :=
  find (matchesPatient uuid) items.


(** [registration._patientRegistrationData] without optional chaining:
    throws when [find] returned [undefined]. *)
Definition registrationData (registration : option PatientRegistration)
  : Js.Outcome PatientRegistrationData :=
  match registration with
  | Some r => Js.Returned (_patientRegistrationData r)
  | None =>
      Js.Thrown
        (Js.TypeError
           "Cannot read properties of undefined (reading '_patientRegistrationData')")
  end.

(** [registration?._patientRegistrationData.initialAddressFieldValues]. *)
Definition initialAddressFieldValuesOf (registration : option PatientRegistration)
  : option (gmap string string) :=
  match registration with
  | Some r => initialAddressFieldValues (_patientRegistrationData r)
  | None => None
  end.

(** ** Collaborators

    Functions of the framework, of dayjs and of modules of the application
    that are not part of this file.  Each is a parameter of the model. *)

Class Collaborators := {
  (** [{ ...fv, ...getFormValuesFromFhirPatient(patient) }] *)
  getFormValuesFromFhirPatient : FhirPatient -> FormValues -> FormValues;
  getAddressFieldValuesFromFhirPatient : FhirPatient -> gmap string string;
  getPhonePersonAttributeValueFromFhirPatient :
    FhirPatient -> string -> gmap string Js.Value;
  getIdentifierFieldValuesFromFhirPatient :
    FhirPatient -> gmap string PatientIdentifierValue;
  getPatientUuidMapFromFhirPatient : FhirPatient -> gmap string string;
  (** [dayjs().diff(date, 'month')]: the whole months from the date dayjs
      reads in the string (the first of January for a bare year) to now,
      [NaN] when dayjs cannot read it. *)
  dayjs_diff_month : string -> Js.number;
  (** [new Date(string)] *)
  Date_new : string -> Date;
  (** [dayjs(date).format('hh:mm')] and [dayjs(date).hour()] *)
  dayjs_format_hhmm : Date -> string;
  dayjs_hour : Date -> Js.number;
  (** Time value of an encounter datetime. *)
  encounterTime : string -> Z;
}.

(** ** What an effect body did *)

Inductive Event :=
| GetSynchronizationItems                 (* the offline-draft lookup ran *)
| ConsoleError (msg : string)
| UnhandledRejection (e : Js.Error).      (* the async body threw *)

(** The values the hooks called by [useInitialFormValuesLocal] and
    [usePatientUuidMap] see at a render: the patient identifier, the
    configuration, what [usePatient] and [useInitialPatientRelationships]
    returned, the state of each [useSWR] request, and the content of the
    offline queue. *)
Record Sources := {
  config : RegistrationConfig;
  src_patientUuid : option string;
  isLoadingPatientToEdit : bool;
  patientToEdit : option FhirPatient;
  loadingDeathInfo : bool;
  deathInfoResponse : option DeathInfoResults;
  loadingAttributes : bool;
  attributeResults : option (list PersonAttributeResponse);
  loadingIdentifiers : bool;
  identifierResults : option (list PatientIdentifierResponse);
  isLoadingRelationships : bool;
  relationshipsData : option (list RelationshipValue);
  encounterResults : option (list Encounter);
  syncItems : list PatientRegistration;
}.

(** [useSWR(key, fetcher)] with a key that is [null] when [shouldFetch] is
    false: no request, no data, not loading. *)
Definition swrData {A} (shouldFetch : bool) (response : option A) : option A :=
  if shouldFetch then response else None.
Definition swrLoading (shouldFetch loading : bool) : bool :=
  shouldFetch && loading.

Definition str_or_empty (s : option string) : string :=
  match s with Some s => s | None => "" end.

(** The template literal of the diagnostic. *)
Definition noFormValuesMessage (uuid : string) : string :=
  "Found a queued offline patient registration for patient " ++ uuid ++
  ", but without form values. Not using these values.".

(** [/^\d{4}-\d{2}-\d{2}$/] *)
Definition reFullDate : Regex.re :=
  Regex.seqs [ Regex.Bos;
               Regex.times 4 (Regex.Chr Regex.digit); Regex.Chr (Regex.only "-");
               Regex.times 2 (Regex.Chr Regex.digit); Regex.Chr (Regex.only "-");
               Regex.times 2 (Regex.Chr Regex.digit); Regex.Eos ].

(** [forEach] loops that assign [object[key x] = val x] for the elements of
    a list in turn, starting from the object [m]. *)
Definition assignAll {A V : Type} (key : A -> string) (val : A -> V)
  (l : list A) (m : gmap string V) : gmap string V :=
  fold_left (fun acc x => <[key x := val x]> acc) l m.

(** ** The data hooks *)

(** [useInitialPersonDeathInfo]: [data] and [isLoading]. *)
Definition useInitialPersonDeathInfo (src : Sources)
  : option DeathInfoResults * bool :=
  let shouldFetch := Js.truthy (src_patientUuid src) in
  (swrData shouldFetch (deathInfoResponse src), swrLoading shouldFetch (loadingDeathInfo src)).

(** [useInitialPersonAttributes] *)
Definition useInitialPersonAttributes (src : Sources)
  : option (list PersonAttributeResponse) * bool :=
  let shouldFetch := Js.truthy (src_patientUuid src) in
  (swrData shouldFetch (attributeResults src), swrLoading shouldFetch (loadingAttributes src)).

(** The record [useInitialPatientIdentifiers] stores for one identifier. *)
Definition identifierValueOf (patientIdentifier : PatientIdentifierResponse)
  : PatientIdentifierValue := {|
  identifierUuid := pi_uuid patientIdentifier;
  preferred := pi_preferred patientIdentifier;
  initialValue := pi_identifier patientIdentifier;
  identifierValue := pi_identifier patientIdentifier;
  identifierTypeUuid := it_uuid (identifierType patientIdentifier);
  identifierName := it_name (identifierType patientIdentifier);
  required := it_required (identifierType patientIdentifier);
  selectedSource := None;
  autoGeneration := false;
|}.

(** The key under which it is stored. *)
Definition identifierKey (patientIdentifier : PatientIdentifierResponse) : string :=
  Lodash.camelCase (it_name (identifierType patientIdentifier)).

(** The [forEach] of [useInitialPatientIdentifiers]; nothing is stored
    while there are no results. *)
Definition identifierMap (results : option (list PatientIdentifierResponse))
  : gmap string PatientIdentifierValue :=
  match results with
  | Some l =>
      fold_left (fun ids pid => <[identifierKey pid := identifierValueOf pid]> ids) l ∅
  | None => ∅
  end.

(** [useInitialPatientIdentifiers]: [data] is always an object. *)
Definition useInitialPatientIdentifiers (src : Sources)
  : gmap string PatientIdentifierValue * bool :=
  let shouldFetch := Js.truthy (src_patientUuid src) in
  (identifierMap (swrData shouldFetch (identifierResults src)),
   swrLoading shouldFetch (loadingIdentifiers src)).

(** *** Encounters *)

(** [Array.prototype.sort] with a comparator: a stable sort; an element
    goes before the first one it does not compare greater than. *)
Fixpoint sortInsert {A} (compare : A -> A -> Z) (x : A) (l : list A) : list A :=
  match l with
  | [] => [x]
  | y :: l' => if compare x y <=? 0 then x :: l else y :: sortInsert compare x l'
  end.

Definition sort {A} (compare : A -> A -> Z) (l : list A) : list A :=
  fold_right (sortInsert compare) [] l.

(** [typeof value === 'object' ? value?.uuid : value] *)
Definition obsEntryValue (value : Js.Value) : Js.Value :=
  if Js.typeof_object value then Js.opt_uuid value else value.

(** [obs.map(...).reduce((accu, curr) => Object.assign(accu, curr), {})] *)
Definition obsMap (l : list Obs) : gmap string Js.Value :=
  fold_left
    (fun accu o => <[resourceUuid (concept o) := obsEntryValue (obs_value o)]> accu)
    l ∅.

(** The request of [useInitialEncounters]: patient and encounter type of
    the query, [None] for the [null] key. *)
Definition encounterRequest (src : Sources) : option (option string * string) :=
  match patientToEdit src with
  | Some _ =>
      if Js.truthy (encounterTypeUuid (config src))
      then Some (src_patientUuid src, str_or_empty (encounterTypeUuid (config src)))
      else None
  | None => None
  end.

Section WithCollaborators.
Context `{Collaborators}.

(** Modelled from the spec: [latestFirstEncounter] is defined in
    [patient-registration-utils], which is not part of this file; the
    spec orders encounters by encounter datetime, descending. *)
Definition latestFirstEncounter (a b : Encounter) : Z :=
  encounterTime (encounterDatetime b) - encounterTime (encounterDatetime a).

(** [useInitialEncounters]: [data]. *)
Definition useInitialEncounters (src : Sources) : option (gmap string Js.Value) :=
  let data :=
    swrData (bool_decide (is_Some (encounterRequest src))) (encounterResults src) in
  match data with
  | Some results =>
      match sort latestFirstEncounter results with
      | latest :: _ => Some (obsMap (enc_obs latest))
      | [] => None
      end
  | None => None
  end.

(** ** [useInitialFormValuesLocal] *)

(** The object the first effect builds from the core record. *)
Definition coreRecordValues (src : Sources) (patient : FhirPatient)
  (initialFormValues : FormValues) : FormValues :=
  let birthdateEstimated := negb (Regex.test reFullDate (birthDate patient)) in
  let estimatedMonthsAvailable :=
    (1 <? length (Str.split "-" (birthDate patient)))%nat in
  let yearsEstimated :=
    if birthdateEstimated
    then Js.floor_div (dayjs_diff_month (birthDate patient)) 12
    else Js.Int 0 in
  let monthsEstimated :=
    if birthdateEstimated && estimatedMonthsAvailable
    then Js.rem (dayjs_diff_month (birthDate patient)) 12
    else Js.Int 0 in
  withBirthdateEstimate
    (withOthers
       (withAddress
          (getFormValuesFromFhirPatient patient initialFormValues)
          (getAddressFieldValuesFromFhirPatient patient))
       (getPhonePersonAttributeValueFromFhirPatient patient
          (phonePersonAttributeUuid (config src))))
    (negb (Regex.test reFullDate (birthDate patient)))
    yearsEstimated monthsEstimated.

(** The [else if] branch after [getSynchronizationItems] resolved: the
    console output and the next state, or the exception.  The body is
    asynchronous: an exception rejects its promise, which nobody handles,
    and the state is written when the promise of the lookup is
    fulfilled. *)
Definition adoptQueuedDraft (src : Sources) (uuid : string)
  (initialFormValues : FormValues) : Js.Outcome (list Event * FormValues) :=
  let* registration := getPatientRegistration (syncItems src) uuid in
  let* data := registrationData registration in
  match formValues data with
  | None => Js.Returned ([ConsoleError (noFormValuesMessage uuid)], initialFormValues)
  | Some values => Js.Returned ([], values)
  end.

(** The first effect. *)
Definition coreRecordEffect (src : Sources) (initialFormValues : FormValues)
  : list Event * FormValues :=
  match patientToEdit src with
  | Some patient => ([], coreRecordValues src patient initialFormValues)
  | None =>
      if negb (isLoadingPatientToEdit src) && Js.truthy (src_patientUuid src) then
        match adoptQueuedDraft src (str_or_empty (src_patientUuid src)) initialFormValues with
        | Js.Returned (log, values) => (GetSynchronizationItems :: log, values)
        | Js.Thrown e =>
            ([GetSynchronizationItems; UnhandledRejection e], initialFormValues)
        end
      else ([], initialFormValues)
  end.

(** [dayjs(deathDate).hour() >= 12]; a comparison with [NaN] is false. *)
Definition hourIsPM (h : Js.number) : bool :=
  match h with
  | Js.Int z => 12 <=? z
  | Js.NaN => false
  end.

(** "Set initial patient death info" *)
Definition deathInfoEffect (src : Sources) (initialFormValues : FormValues)
  : FormValues :=
  let '(deathInfo, isLoadingDeathInfo) := useInitialPersonDeathInfo src in
  match deathInfo with
  | Some deathInfo =>
      if negb isLoadingDeathInfo && dead deathInfo then
        let deathDatetime :=
          if Js.truthy (di_deathDate deathInfo) then di_deathDate deathInfo else None in
        let deathDate := option_map Date_new deathDatetime in
        let time := option_map dayjs_format_hhmm deathDate in
        let timeFormat :=
          match deathDate with
          | Some d => if hourIsPM (dayjs_hour d) then PM else AM
          | None => AM
          end in
        withDeathInfo initialFormValues
          (dead deathInfo || false)
          deathDate time timeFormat
          (if Js.truthy (causeOfDeathNonCoded deathInfo)
           then Some (freeTextFieldConceptUuid (config src))
           else option_map resourceUuid (causeOfDeath deathInfo))
          (causeOfDeathNonCoded deathInfo)
      else initialFormValues
  | None => initialFormValues
  end.

(** "Set initial patient relationships" *)
Definition relationshipsEffect (src : Sources) (initialFormValues : FormValues)
  : FormValues :=
  match relationshipsData src with
  | Some relationships =>
      if negb (isLoadingRelationships src)
      then withRelationships initialFormValues relationships
      else initialFormValues
  | None => initialFormValues
  end.

(** "Set Initial patient identifiers" *)
Definition identifiersEffect (src : Sources) (initialFormValues : FormValues)
  : FormValues :=
  let '(identifiers, isLoadingIdentifiers) := useInitialPatientIdentifiers src in
  if negb isLoadingIdentifiers
  then withIdentifiers initialFormValues identifiers
  else initialFormValues.

(** The value stored for a person attribute. *)
Definition personAttributeValue (attribute : PersonAttributeResponse) : Js.Value :=
  if String.eqb (at_format (attributeType attribute)) "org.openmrs.Concept"
     && Js.typeof_object (pa_value attribute)
  then Js.opt_uuid (pa_value attribute)
  else pa_value attribute.

Definition personAttributes (attributes : list PersonAttributeResponse)
  : gmap string Js.Value :=
  fold_left
    (fun acc a => <[at_uuid (attributeType a) := personAttributeValue a]> acc)
    attributes ∅.

(** "Set Initial person attributes" *)
Definition attributesEffect (src : Sources) (initialFormValues : FormValues)
  : FormValues :=
  let '(attributes, isLoadingAttributes) := useInitialPersonAttributes src in
  match attributes with
  | Some attributes =>
      if negb isLoadingAttributes
      then withAttributes initialFormValues (personAttributes attributes)
      else initialFormValues
  | None => initialFormValues
  end.

(** "Set Initial registration encounters" *)
Definition encountersEffect (src : Sources) (initialFormValues : FormValues)
  : FormValues :=
  match patientToEdit src, useInitialEncounters src with
  | Some _, Some encounters => withObs initialFormValues encounters
  | _, _ => initialFormValues
  end.

(** The effects of the hook, and one run of an effect on the latest
    state. *)
Inductive Effect :=
| CoreRecord
| DeathInfo
| Relationships
| Identifiers
| Attributes
| Encounters.

Definition runEffect (src : Sources) (e : Effect) (fv : FormValues) : FormValues :=
  match e with
  | CoreRecord => snd (coreRecordEffect src fv)
  | DeathInfo => deathInfoEffect src fv
  | Relationships => relationshipsEffect src fv
  | Identifiers => identifiersEffect src fv
  | Attributes => attributesEffect src fv
  | Encounters => encountersEffect src fv
  end.

(** The state after the effects ran in the given order. *)
Definition runEffects (src : Sources) (order : list Effect) (fv : FormValues)
  : FormValues :=
  fold_left (fun s e => runEffect src e s) order fv.

(** The four merges that arrive independently of the core record. *)
Definition independentMerges : list Effect :=
  [DeathInfo; Relationships; Identifiers; Attributes].

Definition independent (e : Effect) : Prop := In e independentMerges.

(** ** [useMpiInitialFormValues] *)

(** The effect of the hook; [mpiPatient] is [mpiPatient?.data]. *)
Definition mpiEffect (src : Sources) (mpiPatient : option FhirPatient)
  (initialMPIFormValues : FormValues) : FormValues :=
  match mpiPatient with
  | Some data =>
      match identifier data with
      | Some _ =>
          withAttributes
            (withIdentifiers
               (withAddress
                  (getFormValuesFromFhirPatient data initialMPIFormValues)
                  (getAddressFieldValuesFromFhirPatient data))
               (getIdentifierFieldValuesFromFhirPatient data))
            (getPhonePersonAttributeValueFromFhirPatient data
               (phonePersonAttributeUuid (config src)))
      | None => initialMPIFormValues
      end
  | None => initialMPIFormValues
  end.

(** ** [usePatientUuidMap] *)

(** [attributeUuidMap[`attribute.${attribute?.attributeType?.uuid}`] =
    attribute?.uuid] *)
Definition getPatientAttributeUuidMapForPatient
  (attributes : list PersonAttributeResponse) : gmap string string :=
  fold_left
    (fun attributeUuidMap attribute =>
       <["attribute." ++ at_uuid (attributeType attribute) := pa_uuid attribute]>
         attributeUuidMap)
    attributes ∅.

(** The first effect: [{ ...patientUuidMap, ...fromPatient }] in edit
    mode, else the queued draft's [initialAddressFieldValues ?? fallback]
    once the promise of [getPatientRegistration] is fulfilled. *)
Definition uuidMapEffect (src : Sources) (fallback patientUuidMap : gmap string string)
  : list Event * gmap string string :=
  match patientToEdit src with
  | Some patient =>
      ([], getPatientUuidMapFromFhirPatient patient ∪ patientUuidMap)
  | None =>
      if negb (isLoadingPatientToEdit src) && Js.truthy (src_patientUuid src) then
        match getPatientRegistration (syncItems src) (str_or_empty (src_patientUuid src)) with
        | Js.Returned registration =>
            ([GetSynchronizationItems],
             match initialAddressFieldValuesOf registration with
             | Some values => values
             | None => fallback
             end)
        | Js.Thrown e =>
            ([GetSynchronizationItems; UnhandledRejection e], patientUuidMap)
        end
      else ([], patientUuidMap)
  end.

(** The second effect. *)
Definition uuidMapAttributesEffect (src : Sources)
  (prevPatientUuidMap : gmap string string) : gmap string string :=
  match fst (useInitialPersonAttributes src) with
  | Some attributes =>
      getPatientAttributeUuidMapForPatient attributes ∪ prevPatientUuidMap
  | None => prevPatientUuidMap
  end.

(** ** [PatientRegistration] *)

(** The two pieces of state the component takes from the hooks. *)
Record RegistrationState := {
  initialFormValues : FormValues;
  initialMPIFormValues : FormValues;
}.

(** The state at mount: each hook evaluates its own [v4()]. *)
Definition mountState (localUuid mpiUuid : string) : RegistrationState := {|
  initialFormValues := defaultFormValues localUuid;
  initialMPIFormValues := defaultFormValues mpiUuid;
|}.

(** Every object is truthy. *)
Definition objectTruthy (_ : FormValues) : bool := true.

(** [if (initialMPIFormValues) setInitialFormValues(initialMPIFormValues)] *)
Definition copyMpiEffect (st : RegistrationState) : RegistrationState :=
  if objectTruthy (initialMPIFormValues st)
  then {| initialFormValues := initialMPIFormValues st;
          initialMPIFormValues := initialMPIFormValues st |}
  else st.

(** [useEffect(..., [initialMPIFormValues, setInitialFormValues])]: the
    setter never changes, so the effect runs at the mount and at every
    commit in which the master-index state is another object than at the
    commit before.  Objects are told apart by the number of
    [setInitialMPIFormValues] calls that produced them; [seen] is the
    number at the commit before, [None] at the mount. *)
Definition mpiStateChanged (seen : option nat) (generation : nat) : bool :=
  match seen with
  | None => true
  | Some g => negb (Nat.eqb g generation)
  end.

Definition commitCopyEffect (seen : option nat) (generation : nat)
  (st : RegistrationState) : RegistrationState :=
  if mpiStateChanged seen generation then copyMpiEffect st else st.

End WithCollaborators.

(** ** Sample data

    A concrete choice of the collaborators and of the hooks' inputs, used
    to evaluate the model. *)

Module Sample.

Definition collaborators : Collaborators := {|
  getFormValuesFromFhirPatient := fun _ fv => fv;
  getAddressFieldValuesFromFhirPatient := fun _ => ∅;
  getPhonePersonAttributeValueFromFhirPatient := fun _ _ => ∅;
  getIdentifierFieldValuesFromFhirPatient := fun _ => ∅;
  getPatientUuidMapFromFhirPatient := fun p => {[ "preferredNameUuid" := fhirId p ]};
  dayjs_diff_month := fun _ => Js.Int 443;
  Date_new := fun _ => Some 1700000000000;
  dayjs_format_hhmm := fun _ => "10:13";
  dayjs_hour := fun _ => Js.Int 22;
  encounterTime := fun s =>
    if String.eqb s "2024-03-01T09:00:00.000+0000" then 1709283600000
    else if String.eqb s "2023-07-15T14:30:00.000+0000" then 1689431400000
    else 0;
|}.

Definition registrationConfig : RegistrationConfig := {|
  freeTextFieldConceptUuid := "free-text-concept";
  phonePersonAttributeUuid := "phone-attribute";
  encounterTypeUuid := Some "registration-encounter";
|}.

(** Sources in which no request is loading any more. *)
Definition sources (uuid : option string) (patient : option FhirPatient)
  (death : option DeathInfoResults)
  (attrs : option (list PersonAttributeResponse))
  (ids : option (list PatientIdentifierResponse))
  (rels : option (list RelationshipValue))
  (encs : option (list Encounter))
  (items : list PatientRegistration) : Sources := {|
  config := registrationConfig;
  src_patientUuid := uuid;
  isLoadingPatientToEdit := false;
  patientToEdit := patient;
  loadingDeathInfo := false;
  deathInfoResponse := death;
  loadingAttributes := false;
  attributeResults := attrs;
  loadingIdentifiers := false;
  identifierResults := ids;
  isLoadingRelationships := false;
  relationshipsData := rels;
  encounterResults := encs;
  syncItems := items;
|}.

(** An identifier was supplied, nothing was found anywhere. *)
Definition unknownPatient : Sources :=
  sources (Some "p1") None None None None None None [].

(** A queued registration that lacks its form values. *)
Definition draftWithoutFormValues : PatientRegistration :=
  {| _patientRegistrationData :=
       {| formValues := None; initialAddressFieldValues := None |} |}.

Definition queueWithBrokenDraft : Sources :=
  sources (Some "p1") None None None None None None [draftWithoutFormValues].

Definition patient (birth : string) : FhirPatient :=
  {| fhirId := "p1"; birthDate := birth; identifier := None |}.

Definition editing (birth : string) : Sources :=
  sources (Some "p1") (Some (patient birth)) None None None None None [].

Definition malaria : OpenmrsResource :=
  {| resourceUuid := "malaria-concept"; resourceDisplay := "Malaria" |}.

Definition deathInfo (cause : option OpenmrsResource) (nonCoded : option string)
  : DeathInfoResults := {|
  di_uuid := "p1";
  di_display := "John Doe";
  causeOfDeath := cause;
  dead := true;
  di_deathDate := Some "2023-11-14T22:13:20.000+0000";
  causeOfDeathNonCoded := nonCoded;
|}.

Definition deceased (cause : option OpenmrsResource) (nonCoded : option string)
  : Sources :=
  sources (Some "p1") None (Some (deathInfo cause nonCoded)) None None None None [].

Definition nationalId : PatientIdentifierResponse := {|
  pi_uuid := "identifier-1";
  pi_identifier := "100GEJ";
  identifierType :=
    {| it_uuid := "national-id-type"; it_required := true; it_name := "National ID" |};
  pi_preferred := true;
|}.

Definition civilStatus : PersonAttributeResponse := {|
  pa_uuid := "attribute-1";
  pa_display := "Civil Status = Married";
  attributeType :=
    {| at_uuid := "civil-status-type"; at_display := "Civil Status";
       at_format := "org.openmrs.Concept" |};
  pa_value := Js.Ref "married-concept" "Married";
|}.

Definition sibling : RelationshipValue := {|
  relatedPersonUuid := "p2";
  relationshipType := "sibling-type/aIsToB";
  relationshipUuid := "relationship-1";
|}.

(** Every independent source has resolved. *)
Definition resolved : Sources :=
  sources (Some "p1") None
    (Some (deathInfo (Some malaria) None))
    (Some [civilStatus]) (Some [nationalId]) (Some [sibling]) None [].

Definition weight : OpenmrsResource :=
  {| resourceUuid := "weight-concept"; resourceDisplay := "Weight (kg)" |}.
Definition occupation : OpenmrsResource :=
  {| resourceUuid := "occupation-concept"; resourceDisplay := "Occupation" |}.

Definition olderEncounter : Encounter := {|
  encounterDatetime := "2023-07-15T14:30:00.000+0000";
  enc_obs := [ {| concept := weight; obs_value := Js.Num 61 |} ];
|}.

Definition newerEncounter : Encounter := {|
  encounterDatetime := "2024-03-01T09:00:00.000+0000";
  enc_obs := [ {| concept := weight; obs_value := Js.Num 64 |};
               {| concept := occupation; obs_value := Js.Ref "farmer-concept" "Farmer" |} ];
|}.

(** An existing patient with two registration encounters. *)
Definition withEncounters : Sources :=
  sources (Some "p1") (Some (patient "1990-06-15")) None None None None
    (Some [olderEncounter; newerEncounter]) [].

Definition identifierOfType (name : string) : PatientIdentifierResponse := {|
  pi_uuid := "identifier-2";
  pi_identifier := "10003C";
  identifierType := {| it_uuid := "type-2"; it_required := false; it_name := name |};
  pi_preferred := false;
|}.

(** A queued registration of the patient ["p1"]. *)
Definition queuedDraft : PatientRegistration := {|
  _patientRegistrationData := {|
    formValues := Some (defaultFormValues "p1");
    initialAddressFieldValues := Some {[ "cityVillage" := "Kampala" ]};
  |}
|}.

Definition queuedDraftOfOther : PatientRegistration := {|
  _patientRegistrationData := {|
    formValues := Some (defaultFormValues "p7");
    initialAddressFieldValues := Some {[ "cityVillage" := "Gulu" ]};
  |}
|}.

(** The patient ["p1"] exists in the offline queue only. *)
Definition queuedOffline : Sources :=
  sources (Some "p1") None None (Some [civilStatus]) None None None
    [queuedDraftOfOther; queuedDraft].

End Sample.

(** * The rest of the hooks and the components *)

(** A queued draft with form values of another patient: [find] passes
    over it. *)
Definition draftOfOther (uuid : string) (item : PatientRegistration) : Prop :=
  exists values,
    formValues (_patientRegistrationData item) = Some values /\
    patientUuid values <> uuid.

(** A draft with form values of the patient. *)
Definition draftOf (uuid : string) (item : PatientRegistration) : Prop :=
  exists values,
    formValues (_patientRegistrationData item) = Some values /\
    patientUuid values = uuid.

#[global] Instance Effect_eq_dec : EqDecision Effect.
Proof. solve_decision. Defined.

(** The keys of the form state that only the core record, a queued draft
    or the user may set. *)
Definition demographicsOf (fv : FormValues) :=
  (patientUuid fv, givenName fv, middleName fv, familyName fv,
   (additionalGivenName fv, additionalMiddleName fv, additionalFamilyName fv,
    addNameInLocalLanguage fv),
   (gender fv, birthdate fv, birthdateEstimated fv, yearsEstimated fv,
    monthsEstimated fv),
   (telephoneNumber fv, address fv, others fv)).

(** Four digits: a year and nothing else. *)
Definition yearShaped (s : string) : Prop :=
  exists y1 y2 y3 y4,
    list_ascii_of_string s = [y1; y2; y3; y4] /\
    Forall (fun c => Regex.digit c = true) [y1; y2; y3; y4].

(** What the four independent hooks have to merge at a render: death
    information of a person marked dead, a non-empty list of
    relationships, a non-empty identifier map, a list of attributes (empty
    or not), in each case with the request no longer loading. *)
Definition deathInfoArrived (src : Sources) : Prop :=
  exists info, useInitialPersonDeathInfo src = (Some info, false) /\ dead info = true.

Definition relationshipsArrived (src : Sources) : Prop :=
  exists first rest,
    relationshipsData src = Some (first :: rest) /\ isLoadingRelationships src = false.

Definition identifiersArrived (src : Sources) : Prop :=
  snd (useInitialPatientIdentifiers src) = false /\
  exists key record, fst (useInitialPatientIdentifiers src) !! key = Some record.

Definition attributesArrived (src : Sources) : Prop :=
  exists attributes, useInitialPersonAttributes src = (Some attributes, false).

(** Four digits, a hyphen, two digits, a hyphen, two digits. *)
Definition dateShaped (s : string) : Prop :=
  exists y1 y2 y3 y4 m1 m2 d1 d2,
    list_ascii_of_string s
    = [y1; y2; y3; y4; "-"%char; m1; m2; "-"%char; d1; d2] /\
    Forall (fun c => Regex.digit c = true) [y1; y2; y3; y4; m1; m2; d1; d2].

(** ** [useInitialAddressFieldValues] *)

(** A value of the hook's state object: a text, or the object stored
    under [address]. *)
Inductive AddressFieldValue :=
| FieldText (s : string)
| FieldObject (fields : gmap string string).

(** The [initialAddressFieldValues] of a queued draft as a state of the
    hook. *)
Definition addressFieldsOfDraft (values : gmap string string)
  : gmap string AddressFieldValue :=
  FieldText <$> values.

Section AddressFieldValues.
Context `{Collaborators}.

(** The effect of the hook: [{ ...initialAddressFieldValues, address }]
    in edit mode, else the queued draft's
    [initialAddressFieldValues ?? fallback]. *)
Definition addressFieldsEffect (src : Sources)
  (fallback initialAddressFieldValues : gmap string AddressFieldValue)
  : list Event * gmap string AddressFieldValue :=
  match patientToEdit src with
  | Some patient =>
      ([], <["address" := FieldObject (getAddressFieldValuesFromFhirPatient patient)]>
             initialAddressFieldValues)
  | None =>
      if negb (isLoadingPatientToEdit src) && Js.truthy (src_patientUuid src) then
        match getPatientRegistration (syncItems src) (str_or_empty (src_patientUuid src)) with
        | Js.Returned registration =>
            ([GetSynchronizationItems],
             match initialAddressFieldValuesOf registration with
             | Some values => addressFieldsOfDraft values
             | None => fallback
             end)
        | Js.Thrown e =>
            ([GetSynchronizationItems; UnhandledRejection e], initialAddressFieldValues)
        end
      else ([], initialAddressFieldValues)
  end.

End AddressFieldValues.

(** ** [PatientRegistration]: edit mode, sections and submission *)

(** [isLoadingPatientToEdit ? undefined : !!(uuidOfPatientToEdit &&
    patientToEdit)]; [None] is [undefined]. *)
Definition inEditMode (isLoading : bool) (uuidOfPatientToEdit : option string)
  (patient : option FhirPatient) : option bool :=
  if isLoading then None
  else Some (Js.truthy uuidOfPatientToEdit && bool_decide (is_Some patient)).

(** Truthiness of [inEditMode], and [!inEditMode]. *)
Definition flagTruthy (flag : option bool) : bool :=
  match flag with Some b => b | None => false end.
Definition flagNot (flag : option bool) : bool := negb (flagTruthy flag).

(** [localStorage.getItem('openmrs:devtools') === 'true' && !inEditMode] *)
Definition showDummyData (devtools : option string) (flag : option bool) : bool :=
  match devtools with
  | Some v => String.eqb v "true" && flagNot flag
  | None => false
  end.

Record SectionDefinition := {
  section_id : string;
  section_name : string;
  section_fields : list string;
}.

(** [definitions.filter((s) => s.id == sectionName)[0]] *)
Definition sectionWithId (sectionName : string) (definitions : list SectionDefinition)
  : option SectionDefinition :=
  head (List.filter (fun s => String.eqb (section_id s) sectionName) definitions).

(** The [sections] of the component: for every configured name the first
    custom definition with that id, else the first built-in one; names
    without a definition are filtered out. *)
Definition sections (configSections : list string)
  (sectionDefinitions builtInSections : list SectionDefinition)
  : list SectionDefinition :=
  omap id
    (map (fun sectionName =>
            match sectionWithId sectionName sectionDefinitions with
            | Some s => Some s
            | None => sectionWithId sectionName builtInSections
            end)
         configSections).

(** What [savePatientForm] rejected with, as far as the handler reads it:
    [error.responseBody?.error?.globalErrors] and
    [error.responseBody?.error?.message]. *)
Record GlobalError := { ge_message : string }.

Record SubmitError := {
  globalErrors : option (list GlobalError);
  errorMessage : option string;
}.

Inductive SnackbarKind := KindSuccess | KindError | KindWarning.

Record Snackbar := {
  sb_kind : SnackbarKind;
  sb_title : string;
  sb_subtitle : string;
  sb_isLowContrast : bool;
}.

(** What [onFormSubmit] does, in order. *)
Inductive UiEvent :=
| SetSubmitting (submitting : bool)
| SavePatientForm (isNewPatient : bool) (values : FormValues)
    (patientUuidMap : gmap string string)
    (initialIdentifiers : gmap string PatientIdentifierValue)
| ShowSnackbar (s : Snackbar)
| SetTarget (url : string)
| CreateErrorHandler (e : SubmitError).

(** Functions the components take from the framework and from other
    modules of the application. *)
Class UiCollaborators := {
  (** [t(key, defaultText)] *)
  t : string -> string -> string;
  (** [interpolateUrl(template, { patientUuid })] *)
  interpolateUrl : string -> string -> string;
  filterOutUndefinedPatientIdentifiers :
    gmap string PatientIdentifierValue -> gmap string PatientIdentifierValue;
  (** [age(birthdate)] and [formatDate(parseDate(birthdate), ...)] *)
  age : string -> string;
  formatBirthdate : string -> string;
}.

Section PatientRegistrationComponent.
Context `{UiCollaborators}.

Definition errorTitle (flag : option bool) : string :=
  if flagTruthy flag
  then t "updatePatientErrorSnackbarTitle" "Patient Details Update Failed"
  else t "registrationErrorSnackbarTitle" "Patient Registration Failed".

Definition successSnackbar (flag : option bool) : Snackbar := {|
  sb_kind := KindSuccess;
  sb_title :=
    if flagTruthy flag
    then t "updatePatientSuccessSnackbarTitle" "Patient Details Updated"
    else t "registerPatientSuccessSnackbarTitle" "New Patient Created";
  sb_subtitle :=
    if flagTruthy flag
    then t "updatePatientSuccessSnackbarSubtitle"
           "The patient's information has been successfully updated"
    else t "registerPatientSuccessSnackbarSubtitle"
           "The patient can now be found by searching for them using their name or ID number";
  sb_isLowContrast := true;
|}.

Definition errorSnackbar (flag : option bool) (subtitle : string) : Snackbar := {|
  sb_kind := KindError;
  sb_title := errorTitle flag;
  sb_subtitle := subtitle;
  sb_isLowContrast := false;
|}.

(** The [catch] block. *)
Definition reportSubmitError (flag : option bool) (error : SubmitError)
  : list UiEvent :=
  match globalErrors error with
  | Some errors =>
      map (fun e => ShowSnackbar (errorSnackbar flag (ge_message e))) errors
  | None =>
      if Js.truthy (errorMessage error)
      then [ShowSnackbar (errorSnackbar flag (str_or_empty (errorMessage error)))]
      else [CreateErrorHandler error]
  end.

(** [onFormSubmit]; [afterUrl] is the [afterUrl] parameter of the query,
    [submitButton] is [config.links.submitButton], [saved] is how the
    promise of [savePatientForm] settled. *)
Definition onFormSubmit (flag : option bool) (afterUrl : option string)
  (submitButton : string) (patientUuidMap : gmap string string)
  (initialFormValues values : FormValues) (saved : option SubmitError)
  : list UiEvent :=
  let updatedFormValues :=
    withIdentifiers values (filterOutUndefinedPatientIdentifiers (identifiers values)) in
  [ SetSubmitting true;
    SavePatientForm (flagNot flag) updatedFormValues patientUuidMap
      (identifiers initialFormValues) ]
  ++ match saved with
     | None =>
         [ ShowSnackbar (successSnackbar flag);
           SetTarget
             (interpolateUrl
                (if Js.truthy afterUrl then str_or_empty afterUrl else submitButton)
                (patientUuid values)) ]
     | Some error => reportSubmitError flag error ++ [SetSubmitting false]
     end.

End PatientRegistrationComponent.

(** The snackbars among the events, in the order shown. *)
Definition snackbarsOf (events : list UiEvent) : list Snackbar :=
  omap (fun e => match e with ShowSnackbar s => Some s | _ => None end) events.

(** ** The query string

    [new URLSearchParams(search).get(name)], on strings of bytes: the
    pairs of the query are separated by [&], name and value by the first
    [=]; in both, [+] stands for a blank and [%XX] for the byte [XX]. *)

Module Url.

Fixpoint takeUntil (stop : ascii) (l : list ascii) : list ascii :=
  match l with
  | [] => []
  | c :: l' => if Ascii.eqb c stop then [] else c :: takeUntil stop l'
  end.

(** From the first [stop] on, [stop] included. *)
Fixpoint dropUntil (stop : ascii) (l : list ascii) : list ascii :=
  match l with
  | [] => []
  | c :: l' => if Ascii.eqb c stop then l else dropUntil stop l'
  end.

(** [location.search] of a URL: from the first [?] to the fragment; empty
    when nothing follows the [?]. *)
Definition search (url : list ascii) : list ascii :=
  match dropUntil "?" (takeUntil "#" url) with
  | [_] => []
  | s => s
  end.

Definition hexValue (c : ascii) : option N :=
  let n := N_of_ascii c in
  if (48 <=? n)%N && (n <=? 57)%N then Some (n - 48)%N
  else if (65 <=? n)%N && (n <=? 70)%N then Some (n - 55)%N
  else if (97 <=? n)%N && (n <=? 102)%N then Some (n - 87)%N
  else None.

Fixpoint percentDecode (l : list ascii) : list ascii :=
  match l with
  | [] => []
  | c :: l' =>
      if Ascii.eqb c "%" then
        match l' with
        | h1 :: h2 :: rest =>
            match hexValue h1, hexValue h2 with
            | Some a, Some b => ascii_of_N (16 * a + b) :: percentDecode rest
            | _, _ => c :: percentDecode l'
            end
        | _ => c :: percentDecode l'
        end
      else c :: percentDecode l'
  end.

Definition decode (l : list ascii) : list ascii :=
  percentDecode (map (fun c => if Ascii.eqb c "+" then " "%char else c) l).

(** Name and value of one [name=value] sequence. *)
Definition pairOf (piece : list ascii) : list ascii * list ascii :=
  (decode (takeUntil "=" piece), decode (tl (dropUntil "=" piece))).

(** The list of pairs of [new URLSearchParams(search)]. *)
Definition params (search : list ascii) : list (list ascii * list ascii) :=
  let query := match search with "?"%char :: q => q | _ => search end in
  map pairOf
    (List.filter (fun piece => negb (Nat.eqb (length piece) 0))
       (Str.split_from "&" [] query)).

(** [.get(name)]: the value of the first pair with that name, or [null]. *)
Fixpoint lookup (name : list ascii) (pairs : list (list ascii * list ascii))
  : option (list ascii) :=
  match pairs with
  | [] => None
  | (n, v) :: rest =>
      if bool_decide (n = name) then Some v else lookup name rest
  end.

Definition get (search : list ascii) (name : string) : option string :=
  string_of_list_ascii <$> lookup (list_ascii_of_string name) (params search).

(** The characters that stand for themselves everywhere in a URL. *)
Definition unreserved (c : ascii) : bool :=
  Regex.upper c || Regex.lower c || Regex.digit c
  || Ascii.eqb c "-" || Ascii.eqb c "." || Ascii.eqb c "_" || Ascii.eqb c "~".

End Url.

(** [sourcePatientId] of [PatientRegistration]:
    [new URLSearchParams(search).get('sourceRecord')]. *)
Definition sourcePatientId (search : list ascii) : option string :=
  Url.get search "sourceRecord".

(** ** [PatientBanner] *)

Record PatientIdentifierEntry := { entry_identifier : string }.

Record SearchedPerson := {
  personName_display : string;
  person_gender : string;
  person_birthdate : option string;
  person_deathDate : option string;
  person_dead : bool;
}.

Record SearchedPatient := {
  sp_uuid : string;
  externalId : string;
  person : SearchedPerson;
  sp_identifiers : option (list PatientIdentifierEntry);
}.

(** [handleCreatePatientRecord]: the URL it navigates to;
    [spaBase] is [window.getOpenmrsSpaBase()]. *)
Definition createPatientRecordUrl (spaBase externalId : string) : string :=
  spaBase ++ "patient-registration?sourceRecord=" ++ externalId.

(** [array.join(', ')] *)
Fixpoint join (sep : string) (l : list string) : string :=
  match l with
  | [] => ""
  | [s] => s
  | s :: l' => s ++ sep ++ join sep l'
  end.

(** The text of the identifiers row. *)
Definition identifiersText (patient : SearchedPatient) : string :=
  match sp_identifiers patient with
  | Some (i :: l) => join ", " (map entry_identifier (i :: l))
  | _ => "--"
  end.

(** What the banner renders. *)
Record BannerView := {
  deceasedContainer : bool;            (* deceased or active style *)
  shownName : string;
  mpiTag : bool;
  genderText : string;
  demographics : option (string * string);   (* age and birth date *)
  identifiersRow : string;
  actionsMenuDeceased : option bool;   (* [isDeceased] of the actions menu *)
  createRecordTarget : option string;  (* where the MPI button leads *)
  startVisitButton : bool;
  contactDetailsDeceased : option bool;
}.

Section PatientBannerComponent.
Context `{UiCollaborators}.

Definition getGender (gender : string) : string :=
  if String.eqb gender "M" then t "male" "Male"
  else if String.eqb gender "F" then t "female" "Female"
  else if String.eqb gender "O" then t "other" "Other"
  else if String.eqb gender "U" then t "unknown" "Unknown"
  else gender.

(** [PatientBanner]; [hasCurrentVisit] is the truthiness of
    [currentVisit]. *)
Definition PatientBanner (spaBase : string) (patient : SearchedPatient)
  (hideActionsOverflow isMPIPatient hasCurrentVisit showContactDetails : bool)
  : BannerView :=
  let isDeceased := Js.truthy (person_deathDate (person patient)) in
  {| deceasedContainer := isDeceased;
     shownName := personName_display (person patient);
     mpiTag := isMPIPatient;
     genderText := getGender (person_gender (person patient));
     demographics :=
       if Js.truthy (person_birthdate (person patient))
       then let b := str_or_empty (person_birthdate (person patient)) in
            Some (age b, formatBirthdate b)
       else None;
     identifiersRow := identifiersText patient;
     actionsMenuDeceased :=
       if negb hideActionsOverflow then Some (person_dead (person patient)) else None;
     createRecordTarget :=
       if isMPIPatient
       then Some (createPatientRecordUrl spaBase (externalId patient))
       else None;
     startVisitButton := negb isDeceased && negb hasCurrentVisit && negb isMPIPatient;
     contactDetailsDeceased := if showContactDetails then Some isDeceased else None;
  |}.

End PatientBannerComponent.

(** ** More sample data *)

Module Demo.

Definition ui : UiCollaborators := {|
  t := fun _ text => text;
  interpolateUrl := fun template uuid => template ++ uuid;
  filterOutUndefinedPatientIdentifiers := fun ids => ids;
  age := fun _ => "34 yrs";
  formatBirthdate := fun b => b;
|}.

Definition demographicsSection : SectionDefinition :=
  {| section_id := "demographics"; section_name := "Basic Info";
     section_fields := ["name"; "gender"; "dob"] |}.
Definition contactSection : SectionDefinition :=
  {| section_id := "contact"; section_name := "Contact Details";
     section_fields := ["address"; "phone"] |}.
Definition customContactSection : SectionDefinition :=
  {| section_id := "contact"; section_name := "How to reach the patient";
     section_fields := ["phone"] |}.

(** Flagged dead, but no death date recorded. *)
Definition deadWithoutDate : SearchedPatient := {|
  sp_uuid := "p1";
  externalId := "";
  person := {| personName_display := "John Doe"; person_gender := "M";
               person_birthdate := Some "1990-06-15";
               person_deathDate := None; person_dead := true |};
  sp_identifiers := Some [ {| entry_identifier := "100GEJ" |} ];
|}.

(** Two identifiers whose type names fall on one key. *)
Definition nationalIdAgain : PatientIdentifierResponse := {|
  pi_uuid := "identifier-3";
  pi_identifier := "200XYZ";
  identifierType :=
    {| it_uuid := "national-id-type-2"; it_required := false; it_name := "National Id" |};
  pi_preferred := false;
|}.

End Demo.

Ltac unfold_merges :=
  unfold runEffect, deathInfoEffect, relationshipsEffect, identifiersEffect,
    attributesEffect.

(** * Properties *)

(** ** The offline-draft lookup *)

Lemma find_matchesPatient_Some items uuid r :
  getPatientRegistration items uuid = Js.Returned (Some r) ->
  In r items /\
  exists fv, formValues (_patientRegistrationData r) = Some fv /\ patientUuid fv = uuid.
Proof.
  unfold getPatientRegistration.
  induction items as [|item rest IH]; simpl; [discriminate|].
  unfold matchesPatient at 1.
  destruct (formValues (_patientRegistrationData item)) as [fv|] eqn:Efv; simpl;
    [|discriminate].
  destruct (String.eqb (patientUuid fv) uuid) eqn:Eu.
  - intros [= <-]. split; [now left|]. exists fv. split; [exact Efv|].
    now apply String.eqb_eq.
  - intros Hr. destruct (IH Hr) as [Hin Hfv]. split; [now right | exact Hfv].
Qed.

(** On a queue in which every draft has its form values, as the declared
    type requires, the search does not throw. *)
Lemma getPatientRegistration_returns items uuid :
  Forall (fun item => is_Some (formValues (_patientRegistrationData item))) items ->
  exists registration, getPatientRegistration items uuid = Js.Returned registration.
Proof.
  unfold getPatientRegistration.
  induction 1 as [|item rest [fv Hfv] _ [registration IH]]; simpl; [eauto|].
  unfold matchesPatient at 1. rewrite Hfv. simpl.
  destruct (String.eqb (patientUuid fv) uuid); eauto.
Qed.

(** The diagnostic branch of the first effect cannot be reached: a draft
    that [getPatientRegistration] returns has form values, because the
    search itself reads them. *)
Lemma diagnostic_never_logged `{Collaborators} src fv msg :
  ~ In (ConsoleError msg) (fst (coreRecordEffect src fv)).
Proof.
  unfold coreRecordEffect.
  destruct (patientToEdit src); [simpl; tauto|].
  destruct (negb (isLoadingPatientToEdit src) && Js.truthy (src_patientUuid src));
    [|simpl; tauto].
  unfold adoptQueuedDraft.
  destruct (getPatientRegistration _ _) as [[r|]|e] eqn:E; simpl.
  - apply find_matchesPatient_Some in E as (_ & v & -> & _). simpl.
    intros [?|[]]. discriminate.
  - intros [?|[?|[]]]; discriminate.
  - intros [?|[?|[]]]; discriminate.
Qed.

(** C1 (evaluation at the failing input).  The core record is absent, its
    fetch has completed, the identifier ["p1"] was supplied and the queue
    holds one draft without form values: the lookup runs and the body
    throws a [TypeError] while [find] reads [formValues.patientUuid] of
    that draft; the state is unchanged, and the diagnostic is logged
    neither here nor for any other input. *)
Theorem draft_without_form_values_throws `{Collaborators} (fv : FormValues) :
  getPatientRegistration (syncItems Sample.queueWithBrokenDraft) "p1"
  = Js.Thrown (Js.TypeError "Cannot read properties of undefined (reading 'patientUuid')") /\
  coreRecordEffect Sample.queueWithBrokenDraft fv
  = ([GetSynchronizationItems;
      UnhandledRejection
        (Js.TypeError "Cannot read properties of undefined (reading 'patientUuid')")],
     fv) /\
  forall src values msg, ~ In (ConsoleError msg) (fst (coreRecordEffect src values)).
Proof.
  split; [reflexivity|]. split; [reflexivity|].
  intros src values msg. apply diagnostic_never_logged.
Qed.

(** C5.  The first effect calls the offline-draft lookup exactly when
    there is no core record, the core-record fetch is no longer loading
    and the patient identifier is a non-empty string; in particular never
    while the fetch is pending. *)
Theorem draft_lookup_gate `{Collaborators} (src : Sources) (fv : FormValues) :
  In GetSynchronizationItems (fst (coreRecordEffect src fv)) <->
  patientToEdit src = None /\
  isLoadingPatientToEdit src = false /\
  Js.truthy (src_patientUuid src) = true.
Proof.
  unfold coreRecordEffect.
  destruct (patientToEdit src) as [p|].
  - simpl. split; [tauto|]. intros (? & _). discriminate.
  - destruct (isLoadingPatientToEdit src), (Js.truthy (src_patientUuid src)); simpl.
    + split; [tauto|]. intros (_ & ? & _). discriminate.
    + split; [tauto|]. intros (_ & ? & _). discriminate.
    + destruct (adoptQueuedDraft _ _ _) as [[log v]|e]; simpl; tauto.
    + split; [tauto|]. intros (_ & _ & ?). discriminate.
Qed.

Lemma draft_lookup_gate_witness :
  In GetSynchronizationItems
     (fst (@coreRecordEffect Sample.collaborators Sample.unknownPatient
             (defaultFormValues "u"))).
Proof.
  apply (proj2 (@draft_lookup_gate Sample.collaborators Sample.unknownPatient
                  (defaultFormValues "u"))).
  repeat split; reflexivity.
Defined.

(** ** The merge of the core record *)

(** After the first character [^] cannot match any more. *)
Lemma reFullDate_only_at_start (l : list ascii) : forall c,
  Regex.test_from reFullDate (Some c) l = false.
Proof.
  induction l as [|x l IH]; intros c; [reflexivity|].
  cbn. apply IH.
Qed.

Lemma only_hyphen (c : ascii) : Regex.only "-" c = true -> c = "-"%char.
Proof. unfold Regex.only. intros Hc. symmetry. now apply Ascii.eqb_eq. Qed.

Lemma reFullDate_test (s : string) :
  Regex.test reFullDate s = true <-> dateShaped s.
Proof.
  unfold Regex.test, dateShaped.
  generalize (list_ascii_of_string s) as l. intros l. split.
  - destruct l as [|y1 [|y2 [|y3 [|y4 [|h1 [|m1 [|m2 [|h2 [|d1 [|d2 [|x l]]]]]]]]]]];
      cbn; rewrite ?reFullDate_only_at_start;
      repeat match goal with
             | |- (match (if ?b then _ else _) with Some _ => _ | None => _ end) = _
                  -> _ => destruct b eqn:?; cbv iota
             end;
      try (intros Hf; discriminate Hf).
    intros _.
    repeat match goal with
           | E : match ?h with Ascii _ _ _ _ _ _ _ _ => _ end = true |- _ =>
               assert (h = "-"%char) by (apply only_hyphen; exact E);
               clear E; subst h
           end.
    exists y1, y2, y3, y4, m1, m2, d1, d2. split; [reflexivity|].
    repeat constructor; assumption.
  - intros (y1 & y2 & y3 & y4 & m1 & m2 & d1 & d2 & -> & Hd).
    repeat match goal with
           | H : Forall _ (_ :: _) |- _ => inversion H as [|? ? ? ?]; clear H; subst
           end.
    cbn.
    repeat match goal with
           | H : Regex.digit _ = true |- _ => rewrite H; clear H
           end.
    reflexivity.
Qed.

(** [split] yields one piece more than there are separators. *)
Lemma split_from_length (sep : ascii) (l : list ascii) : forall cur,
  length (Str.split_from sep cur l)
  = S (length (List.filter (fun c => Ascii.eqb c sep) l)).
Proof.
  induction l as [|c l IH]; intros cur; [reflexivity|].
  simpl. destruct (Ascii.eqb c sep); simpl; now rewrite IH.
Qed.

Lemma split_several (sep : ascii) (s : string) :
  (1 <? length (Str.split sep s))%nat = true <-> In sep (list_ascii_of_string s).
Proof.
  unfold Str.split. rewrite length_map, split_from_length.
  generalize (list_ascii_of_string s) as l. intros l.
  rewrite Nat.ltb_lt. split.
  - intros Hlen.
    destruct (List.filter (fun c => Ascii.eqb c sep) l) as [|c rest] eqn:Ef;
      [simpl in Hlen; lia|].
    assert (Hin : In c (List.filter (fun c => Ascii.eqb c sep) l))
      by (rewrite Ef; now left).
    apply filter_In in Hin as [Hin Heq]. apply Ascii.eqb_eq in Heq. now subst.
  - intros Hin.
    assert (Hf : In sep (List.filter (fun c => Ascii.eqb c sep) l))
      by (apply filter_In; split; [exact Hin | apply Ascii.eqb_refl]).
    destruct (List.filter _ l); [destruct Hf | simpl; lia].
Qed.

(** C2.  For a stored birthdate of year-only precision (four digits, such
    as ["1990"]; more generally any string without a hyphen) the
    core-record merge sets [birthdateEstimated] to true, [monthsEstimated]
    to 0 and [yearsEstimated] to the floor of a twelfth of the months
    dayjs counts from that date to now; for a stored birthdate of full
    precision (four digits, hyphen, two digits, hyphen, two digits, such
    as ["1990-06-15"]) it sets [birthdateEstimated] to false and both
    estimates to 0. *)
Theorem birthdate_estimates `{Collaborators} (src : Sources) (patient : FhirPatient)
  (fv : FormValues) :
  patientToEdit src = Some patient ->
  let merged := snd (coreRecordEffect src fv) in
  (yearShaped (birthDate patient) ->
     birthdateEstimated merged = true /\
     monthsEstimated merged = Js.Int 0 /\
     yearsEstimated merged = Js.floor_div (dayjs_diff_month (birthDate patient)) 12) /\
  (~ In "-"%char (list_ascii_of_string (birthDate patient)) ->
     birthdateEstimated merged = true /\
     monthsEstimated merged = Js.Int 0 /\
     yearsEstimated merged = Js.floor_div (dayjs_diff_month (birthDate patient)) 12) /\
  (dateShaped (birthDate patient) ->
     birthdateEstimated merged = false /\
     yearsEstimated merged = Js.Int 0 /\
     monthsEstimated merged = Js.Int 0).
Proof.
  intros Hp merged. subst merged. unfold coreRecordEffect. rewrite Hp.
  cbn [snd]. unfold coreRecordValues.
  cbn [birthdateEstimated monthsEstimated yearsEstimated withBirthdateEstimate].
  pose proof (reFullDate_test (birthDate patient)) as Htest.
  pose proof (split_several "-" (birthDate patient)) as Hsplit.
  assert (Hplain :
            ~ In "-"%char (list_ascii_of_string (birthDate patient)) ->
            negb (Regex.test reFullDate (birthDate patient)) = true /\
            (if negb (Regex.test reFullDate (birthDate patient))
                && (1 <? length (Str.split "-" (birthDate patient)))%nat
             then Js.rem (dayjs_diff_month (birthDate patient)) 12
             else Js.Int 0) = Js.Int 0 /\
            (if negb (Regex.test reFullDate (birthDate patient))
             then Js.floor_div (dayjs_diff_month (birthDate patient)) 12
             else Js.Int 0)
            = Js.floor_div (dayjs_diff_month (birthDate patient)) 12).
  { intros Hno.
    assert (Hnot : Regex.test reFullDate (birthDate patient) = false).
    { destruct (Regex.test reFullDate (birthDate patient)); [|reflexivity].
      destruct (proj1 Htest eq_refl)
        as (y1 & y2 & y3 & y4 & m1 & m2 & d1 & d2 & Hl & _).
      exfalso. apply Hno. rewrite Hl. simpl. tauto. }
    rewrite Hnot. cbn [negb andb].
    destruct (1 <? length (Str.split "-" (birthDate patient)))%nat;
      [exfalso; apply Hno; now apply Hsplit|].
    repeat split. }
  split; [|split].
  - intros (y1 & y2 & y3 & y4 & Hl & Hd). apply Hplain.
    rewrite Hl. intros Hin.
    assert (Hdigit : Regex.digit "-"%char = true).
    { apply (proj1 (List.Forall_forall _ _) Hd). exact Hin. }
    discriminate Hdigit.
  - exact Hplain.
  - intros Hshape. rewrite (proj2 Htest Hshape). repeat split.
Qed.

Lemma birthdate_estimates_witness :
  let merged :=
    snd (@coreRecordEffect Sample.collaborators (Sample.editing "1990")
           (defaultFormValues "u")) in
  birthdateEstimated merged = true /\
  monthsEstimated merged = Js.Int 0 /\
  yearsEstimated merged = Js.Int 36.
Proof.
  apply (proj1 (@birthdate_estimates Sample.collaborators (Sample.editing "1990")
                  (Sample.patient "1990") (defaultFormValues "u") eq_refl)).
  exists "1"%char, "9"%char, "9"%char, "0"%char. split; [reflexivity|].
  repeat constructor.
Defined.

(** The two birthdates the spec names. *)
Example sample_year_only_and_full_date :
  let year := snd (@coreRecordEffect Sample.collaborators (Sample.editing "1990")
                     (defaultFormValues "u")) in
  let full := snd (@coreRecordEffect Sample.collaborators (Sample.editing "1990-06-15")
                     (defaultFormValues "u")) in
  (birthdateEstimated year, yearsEstimated year, monthsEstimated year)
  = (true, Js.Int 36, Js.Int 0) /\
  (birthdateEstimated full, yearsEstimated full, monthsEstimated full)
  = (false, Js.Int 0, Js.Int 0).
Proof. split; reflexivity. Qed.

(** A year and a month: the months are the remainder. *)
Example sample_year_and_month :
  let merged :=
    snd (@coreRecordEffect Sample.collaborators (Sample.editing "1990-06")
           (defaultFormValues "u")) in
  birthdateEstimated merged = true /\
  yearsEstimated merged = Js.Int 36 /\
  monthsEstimated merged = Js.Int 11.
Proof. repeat split; reflexivity. Qed.

(** ** The merge of the death information *)

(** The claim of C3 as it stands fails: for a deceased person with a coded
    cause whose [causeOfDeathNonCoded] is the empty string (so not
    non-empty), [deathCause] is the coded concept, but
    [nonCodedCauseOfDeath] is that empty string, not [null]. *)
Lemma empty_narrative_is_not_null :
  let info := Sample.deathInfo (Some Sample.malaria) (Some "") in
  let merged :=
    @deathInfoEffect Sample.collaborators
      (Sample.deceased (Some Sample.malaria) (Some "")) (defaultFormValues "u") in
  dead info = true /\
  causeOfDeath info = Some Sample.malaria /\
  causeOfDeathNonCoded info = Some "" /\
  deathCause merged = Some "malaria-concept" /\
  nonCodedCauseOfDeath merged = Some "" /\
  nonCodedCauseOfDeath merged <> None.
Proof. repeat split. discriminate. Qed.

(** C3, amended.  For a deceased person with a non-empty
    [causeOfDeathNonCoded] the merge sets [deathCause] to the configured
    free-text concept and [nonCodedCauseOfDeath] to the narrative; with a
    coded cause only ([causeOfDeathNonCoded] null or empty), [deathCause]
    is the uuid of the coded concept and [nonCodedCauseOfDeath] is the
    stored [causeOfDeathNonCoded] as it came: [null] when it is [null],
    the empty string when it is empty; and the merge changes the state
    only when the death information has arrived for a person marked
    dead. *)
Theorem death_info_merge `{Collaborators} (src : Sources) (fv : FormValues) :
  (forall info text,
     useInitialPersonDeathInfo src = (Some info, false) ->
     dead info = true ->
     causeOfDeathNonCoded info = Some text -> text <> "" ->
     deathCause (deathInfoEffect src fv) = Some (freeTextFieldConceptUuid (config src)) /\
     nonCodedCauseOfDeath (deathInfoEffect src fv) = Some text) /\
  (forall info coded,
     useInitialPersonDeathInfo src = (Some info, false) ->
     dead info = true ->
     Js.truthy (causeOfDeathNonCoded info) = false ->
     causeOfDeath info = Some coded ->
     deathCause (deathInfoEffect src fv) = Some (resourceUuid coded) /\
     nonCodedCauseOfDeath (deathInfoEffect src fv) = causeOfDeathNonCoded info /\
     (causeOfDeathNonCoded info = None ->
      nonCodedCauseOfDeath (deathInfoEffect src fv) = None) /\
     (causeOfDeathNonCoded info = Some "" ->
      nonCodedCauseOfDeath (deathInfoEffect src fv) = Some "")) /\
  (deathInfoEffect src fv = fv \/
   exists info,
     useInitialPersonDeathInfo src = (Some info, false) /\ dead info = true /\
     isDead (deathInfoEffect src fv) = true).
Proof.
  unfold deathInfoEffect.
  destruct (useInitialPersonDeathInfo src) as [[info|] loading].
  2:{ split; [|split]; [intros; discriminate | intros; discriminate | now left]. }
  split; [|split].
  - intros ? text [= <- ->] Hd Hn Ht. rewrite Hd, Hn. cbn.
    destruct (String.eqb_spec text ""); [contradiction|]. split; reflexivity.
  - intros ? coded [= <- ->] Hd Hn Hc. rewrite Hd, Hn, Hc. cbn [negb andb].
    cbn [deathCause nonCodedCauseOfDeath withDeathInfo option_map].
    split; [reflexivity|]. split; [reflexivity|]. split; intros Hq; exact Hq.
  - destruct loading, (dead info) eqn:Hd; cbn [negb andb]; try (now left).
    right. exists info. split; [reflexivity|]. split; [exact Hd | reflexivity].
Qed.

Lemma death_info_merge_witness :
  let merged :=
    @deathInfoEffect Sample.collaborators
      (Sample.deceased (Some Sample.malaria) (Some "fell from a tree"))
      (defaultFormValues "u") in
  deathCause merged = Some "free-text-concept" /\
  nonCodedCauseOfDeath merged = Some "fell from a tree".
Proof.
  apply (proj1 (@death_info_merge Sample.collaborators
                  (Sample.deceased (Some Sample.malaria) (Some "fell from a tree"))
                  (defaultFormValues "u"))
           (Sample.deathInfo (Some Sample.malaria) (Some "fell from a tree"))
           "fell from a tree");
    [reflexivity | reflexivity | reflexivity | discriminate].
Defined.

Example sample_coded_cause_only :
  let merged :=
    @deathInfoEffect Sample.collaborators (Sample.deceased (Some Sample.malaria) None)
      (defaultFormValues "u") in
  isDead merged = true /\
  deathCause merged = Some "malaria-concept" /\
  nonCodedCauseOfDeath merged = None /\
  deathTime merged = Some "10:13" /\
  deathTimeFormat merged = PM.
Proof. repeat split; reflexivity. Qed.

(** ** The independent merges *)

(** Effects that commute pairwise can run in any order. *)
Lemma fold_left_commute_Permutation {S E : Type} (step : S -> E -> S) (P : E -> Prop) :
  (forall a b s, P a -> P b -> step (step s a) b = step (step s b) a) ->
  forall l l', Permutation l l' -> Forall P l ->
  forall s, fold_left step l s = fold_left step l' s.
Proof.
  intros Hcomm l l' Hperm.
  induction Hperm as [|x l l' Hperm IH|x y l|l l' l'' H1 IH1 H2 IH2]; intros HP s.
  - reflexivity.
  - simpl. apply IH. now inversion HP.
  - simpl. inversion HP as [|? ? Py HP']; subst.
    inversion HP' as [|? ? Px HP'']; subst.
    now rewrite (Hcomm y x s Py Px).
  - rewrite IH1 by assumption. apply IH2.
    eapply Permutation_Forall; eassumption.
Qed.

(** The four merges write disjoint keys, so any two of them commute on
    every state. *)
Lemma independent_merges_commute `{Collaborators} (src : Sources) (a b : Effect)
  (s : FormValues) :
  independent a -> independent b ->
  runEffect src b (runEffect src a s) = runEffect src a (runEffect src b s).
Proof.
  unfold independent, independentMerges. simpl.
  intros [<-|[<-|[<-|[<-|[]]]]] [<-|[<-|[<-|[<-|[]]]]]; try reflexivity;
    unfold_merges;
    destruct (useInitialPersonDeathInfo src) as [[info|] l1];
    destruct (useInitialPatientIdentifiers src) as [ids l2];
    destruct (useInitialPersonAttributes src) as [[attrs|] l3];
    destruct (relationshipsData src) as [rels|];
    try reflexivity;
    repeat match goal with
           | |- context [if ?c then _ else _] => destruct c
           end;
    reflexivity.
Qed.

(** C6.  Whatever the order in which the death-info, relationships,
    identifiers and attributes merges run on the latest snapshot, the
    final form state is the same. *)
Theorem merges_order_independent `{Collaborators} (src : Sources)
  (order : list Effect) (fv : FormValues) :
  Permutation order independentMerges ->
  runEffects src order fv = runEffects src independentMerges fv.
Proof.
  intros Hperm. unfold runEffects.
  apply (fold_left_commute_Permutation (fun s e => runEffect src e s) independent);
    [ | exact Hperm | ].
  - intros a b s Ha Hb. now apply independent_merges_commute.
  - apply List.Forall_forall. intros e He.
    unfold independent. eapply Permutation_in; eassumption.
Qed.

Lemma merges_order_independent_witness :
  @runEffects Sample.collaborators Sample.resolved
    [Attributes; Identifiers; Relationships; DeathInfo] (defaultFormValues "u")
  = @runEffects Sample.collaborators Sample.resolved independentMerges
      (defaultFormValues "u").
Proof.
  apply (@merges_order_independent Sample.collaborators Sample.resolved
           [Attributes; Identifiers; Relationships; DeathInfo] (defaultFormValues "u")).
  exact (Permutation_sym (Permutation_rev independentMerges)).
Defined.

(** ** No core record and no queued draft *)

(** Without a core record and without a queued draft for the identifier,
    the first effect leaves every state as it is (the body ends in a
    [TypeError] or does not run), and so does the encounter effect. *)
Lemma gated_effects_idle `{Collaborators} (src : Sources) (fv : FormValues) :
  patientToEdit src = None ->
  (forall item values,
     In item (syncItems src) ->
     formValues (_patientRegistrationData item) = Some values ->
     patientUuid values <> str_or_empty (src_patientUuid src)) ->
  runEffect src CoreRecord fv = fv /\ runEffect src Encounters fv = fv.
Proof.
  intros Hp Hq. unfold runEffect, coreRecordEffect, encountersEffect. rewrite Hp.
  split; [|reflexivity].
  destruct (negb (isLoadingPatientToEdit src) && Js.truthy (src_patientUuid src));
    [|reflexivity].
  unfold adoptQueuedDraft.
  destruct (getPatientRegistration _ _) as [[r|]|e] eqn:E; simpl; try reflexivity.
  apply find_matchesPatient_Some in E as (Hin & values & Hv & Hu).
  now destruct (Hq r values Hin Hv).
Qed.

(** The claim of C4 as it stands fails: with no core record and an empty
    queue, death information that resolved for the identifier is merged
    over the default state. *)
Lemma default_overwritten_by_death_info :
  patientToEdit (Sample.deceased None None) = None /\
  syncItems (Sample.deceased None None) = [] /\
  @runEffects Sample.collaborators (Sample.deceased None None)
    [CoreRecord; DeathInfo] (defaultFormValues "u")
  <> defaultFormValues "u".
Proof.
  split; [reflexivity|]. split; [reflexivity|].
  intros Heq. apply (f_equal isDead) in Heq. vm_compute in Heq. discriminate.
Qed.

(** C4, amended.  With no core record and no queued draft for the
    identifier, the first effect and the encounter effect never change the
    form state; the other four merges are not gated on the core record,
    and the state stays the default state, whichever effects run and in
    whatever order, exactly when none of them has anything to merge: no
    death information of a person marked dead, no relationship (none or
    an empty list), no identifier (an empty map), and no list of
    attributes at all (an empty list is merged as an empty [attributes]
    object, which the default state does not have). *)
Theorem default_state_kept `{Collaborators} (src : Sources) (uuid : string) :
  patientToEdit src = None ->
  (forall item values,
     In item (syncItems src) ->
     formValues (_patientRegistrationData item) = Some values ->
     patientUuid values <> str_or_empty (src_patientUuid src)) ->
  (forall fv, runEffect src CoreRecord fv = fv /\ runEffect src Encounters fv = fv) /\
  ((forall order, runEffects src order (defaultFormValues uuid) = defaultFormValues uuid)
   <->
   ~ deathInfoArrived src /\ ~ relationshipsArrived src /\
   ~ identifiersArrived src /\ ~ attributesArrived src).
Proof.
  intros Hp Hq.
  split; [intros fv; now apply gated_effects_idle|].
  split.
  - intros Hkept. split; [|split; [|split]].
    + intros (info & Hinfo & Hdead).
      specialize (Hkept [DeathInfo]). unfold runEffects in Hkept. simpl in Hkept.
      unfold deathInfoEffect in Hkept. rewrite Hinfo, Hdead in Hkept.
      apply (f_equal isDead) in Hkept. discriminate Hkept.
    + intros (first & rest & Hrels & Hloading).
      specialize (Hkept [Relationships]). unfold runEffects in Hkept. simpl in Hkept.
      unfold relationshipsEffect in Hkept. rewrite Hrels, Hloading in Hkept.
      apply (f_equal relationships) in Hkept. discriminate Hkept.
    + intros (Hloading & key & record & Hrecord).
      specialize (Hkept [Identifiers]). unfold runEffects in Hkept. simpl in Hkept.
      unfold identifiersEffect in Hkept.
      destruct (useInitialPatientIdentifiers src) as [ids loading].
      cbn [fst snd] in Hloading, Hrecord. subst loading.
      apply (f_equal identifiers) in Hkept. cbn in Hkept.
      rewrite Hkept, lookup_empty in Hrecord. discriminate Hrecord.
    + intros (attrs & Hattrs).
      specialize (Hkept [Attributes]). unfold runEffects in Hkept. simpl in Hkept.
      unfold attributesEffect in Hkept. rewrite Hattrs in Hkept.
      apply (f_equal attributes) in Hkept. discriminate Hkept.
  - intros (Hdeath & Hrels & Hids & Hattrs) order.
    assert (Hstep : forall e,
              runEffect src e (defaultFormValues uuid) = defaultFormValues uuid).
    { intros [].
      - now apply gated_effects_idle.
      - unfold runEffect, deathInfoEffect.
        destruct (useInitialPersonDeathInfo src) as [[info|] loading] eqn:Ehook;
          [|reflexivity].
        destruct loading; [reflexivity|].
        destruct (dead info) eqn:Edead; [|reflexivity].
        exfalso. apply Hdeath. exists info. auto.
      - unfold runEffect, relationshipsEffect.
        destruct (relationshipsData src) as [[|first rest]|] eqn:Erels;
          [now destruct (negb _) | | reflexivity].
        destruct (isLoadingRelationships src) eqn:Eloading; [reflexivity|].
        exfalso. apply Hrels. exists first, rest. auto.
      - unfold runEffect, identifiersEffect.
        destruct (useInitialPatientIdentifiers src) as [ids loading] eqn:Ehook.
        destruct loading; [reflexivity|]. cbn [negb].
        assert (Hempty : ids = ∅).
        { apply map_empty. intros key.
          destruct (ids !! key) as [record|] eqn:Erecord; [|reflexivity].
          exfalso. apply Hids. unfold identifiersArrived. rewrite Ehook.
          split; [reflexivity|]. exists key, record. exact Erecord. }
        now rewrite Hempty.
      - unfold runEffect, attributesEffect.
        destruct (useInitialPersonAttributes src) as [[attrs|] loading] eqn:Ehook;
          [|reflexivity].
        destruct loading; [reflexivity|].
        exfalso. apply Hattrs. exists attrs. exact Ehook.
      - now apply gated_effects_idle. }
    unfold runEffects. induction order as [|e order IH]; [reflexivity|].
    simpl. now rewrite Hstep.
Qed.

Lemma default_state_kept_witness :
  @runEffects Sample.collaborators Sample.unknownPatient
    [Identifiers; CoreRecord; Attributes; DeathInfo; Encounters; Relationships]
    (defaultFormValues "u")
  = defaultFormValues "u".
Proof.
  apply (proj2 (proj2 (@default_state_kept Sample.collaborators Sample.unknownPatient "u"
                         eq_refl (fun item values (Hin : In item []) => match Hin with end)))).
  split; [|split; [|split]].
  - intros (info & Hinfo & _). discriminate Hinfo.
  - intros (first & rest & Hrels & _). discriminate Hrels.
  - intros (_ & key & record & Hrecord). vm_compute in Hrecord. discriminate Hrecord.
  - intros (attributes & Hattributes). discriminate Hattributes.
Defined.

(** An empty list of attributes already moves the state off the default,
    an empty list of relationships does not. *)
Example sample_empty_lists :
  @runEffects Sample.collaborators
    (Sample.sources (Some "p1") None None (Some []) None None None [])
    [Attributes] (defaultFormValues "u")
  = withAttributes (defaultFormValues "u") ∅ /\
  @runEffects Sample.collaborators
    (Sample.sources (Some "p1") None None None None (Some []) None [])
    [Relationships] (defaultFormValues "u")
  = defaultFormValues "u".
Proof. split; reflexivity. Qed.

(** ** Maps built by a loop of assignments *)

Section FoldInsert.
Context {A V : Type} (key : A -> string) (val : A -> V).

(** Every entry was there before or was assigned from an element. *)
Lemma assignAll_lookup_Some l m k v :
  assignAll key val l m !! k = Some v ->
  m !! k = Some v \/ exists x, In x l /\ key x = k /\ val x = v.
Proof.
  unfold assignAll. revert m.
  induction l as [|x l IH]; intros m; simpl; [now left|].
  intros Hl. destruct (IH _ Hl) as [Hm | (y & Hy & Hk & Hv)].
  - destruct (decide (key x = k)) as [Heq|Hne].
    + subst k. rewrite lookup_insert_eq in Hm. injection Hm as <-.
      right. exists x. auto.
    + rewrite lookup_insert_ne in Hm by assumption. now left.
  - right. exists y. auto.
Qed.

(** Keys that are present stay present. *)
Lemma assignAll_lookup_is_Some l m k :
  is_Some (m !! k) -> is_Some (assignAll key val l m !! k).
Proof.
  unfold assignAll. revert m.
  induction l as [|x l IH]; intros m Hm; simpl; [exact Hm|].
  apply IH. destruct (decide (key x = k)) as [<-|Hne].
  - rewrite lookup_insert_eq. eauto.
  - now rewrite lookup_insert_ne.
Qed.

(** Every element has its key assigned. *)
Lemma assignAll_lookup_In l m x :
  In x l -> is_Some (assignAll key val l m !! key x).
Proof.
  revert m. induction l as [|y l IH]; intros m; simpl; [tauto|].
  intros [->|Hin].
  - change (is_Some (assignAll key val l (<[key x := val x]> m) !! key x)).
    apply assignAll_lookup_is_Some. rewrite lookup_insert_eq. eauto.
  - apply (IH (<[key y := val y]> m) Hin).
Qed.

(** Keys that no element has are untouched. *)
Lemma assignAll_lookup_other l m k :
  (forall x, In x l -> key x <> k) -> assignAll key val l m !! k = m !! k.
Proof.
  unfold assignAll. revert m.
  induction l as [|x l IH]; intros m Hk; simpl; [reflexivity|].
  rewrite IH by (intros y Hy; apply Hk; now right).
  apply lookup_insert_ne. apply Hk. now left.
Qed.

End FoldInsert.

(** ** The observations of the latest encounter *)

(** The first element of the sorted list is one whose encounter datetime
    no other exceeds. *)
Lemma sort_latest_first `{Collaborators} (l : list Encounter) :
  match sort latestFirstEncounter l with
  | [] => l = []
  | latest :: _ =>
      In latest l /\
      forall e, In e l ->
        encounterTime (encounterDatetime e) <= encounterTime (encounterDatetime latest)
  end.
Proof.
  induction l as [|x l IH]; simpl; [reflexivity|].
  destruct (sort latestFirstEncounter l) as [|h t]; simpl.
  - subst l. split; [now left|]. intros e [<-|[]]. lia.
  - destruct IH as [Hin Hmax].
    unfold latestFirstEncounter at 1.
    destruct (Z.leb_spec (encounterTime (encounterDatetime h)
                          - encounterTime (encounterDatetime x)) 0) as [Hle|Hgt].
    + split; [now left|]. intros e [<-|He]; [lia|]. specialize (Hmax e He). lia.
    + split; [now right|]. intros e [<-|He]; [lia|]. now apply Hmax.
Qed.

(** C7.  [useInitialEncounters] asks for the encounters of the configured
    type, and only when a core record exists; of the encounters returned
    it keeps the observations of one whose datetime no other exceeds, each
    under the uuid of its concept, with the uuid of the referenced concept
    as value where the value is an object; and the effect writes [obs]
    only when a core record exists. *)
Theorem latest_encounter_observations `{Collaborators} (src : Sources) :
  (patientToEdit src = None ->
     encounterRequest src = None /\ useInitialEncounters src = None /\
     forall fv, encountersEffect src fv = fv) /\
  (forall request,
     encounterRequest src = Some request ->
     encounterTypeUuid (config src) = Some (snd request)) /\
  (forall request results,
     encounterRequest src = Some request ->
     encounterResults src = Some results -> results <> [] ->
     exists latest,
       In latest results /\
       (forall e, In e results ->
          encounterTime (encounterDatetime e)
          <= encounterTime (encounterDatetime latest)) /\
       useInitialEncounters src = Some (obsMap (enc_obs latest)) /\
       forall fv, obs (encountersEffect src fv) = Some (obsMap (enc_obs latest))) /\
  (forall l o, In o l -> is_Some (obsMap l !! resourceUuid (concept o))) /\
  (forall l k v,
     obsMap l !! k = Some v ->
     exists o, In o l /\ resourceUuid (concept o) = k /\
       v = match obs_value o with
           | Js.Ref uuid _ => Js.Str uuid
           | Js.Null => Js.Undefined
           | scalar => scalar
           end).
Proof.
  split; [|split; [|split; [|split]]].
  - intros Hp. unfold encountersEffect, useInitialEncounters, encounterRequest.
    rewrite Hp. repeat split; reflexivity.
  - intros request. unfold encounterRequest.
    destruct (patientToEdit src); [|discriminate].
    destruct (encounterTypeUuid (config src)) as [t|]; simpl; [|discriminate].
    destruct (negb (String.eqb t "")); [|discriminate].
    now intros [= <-].
  - intros request results Hreq Hres Hne.
    pose proof (sort_latest_first results) as Hsort.
    unfold encountersEffect, useInitialEncounters.
    rewrite Hreq, Hres.
    assert (Hp : exists p, patientToEdit src = Some p).
    { unfold encounterRequest in Hreq.
      destruct (patientToEdit src) as [p|]; [eauto | discriminate]. }
    destruct Hp as [p ->].
    rewrite bool_decide_eq_true_2 by eauto. cbn [swrData].
    destruct (sort latestFirstEncounter results) as [|latest rest]; [contradiction|].
    destruct Hsort as [Hin Hmax].
    exists latest. repeat split; auto.
  - intros l o Hin. unfold obsMap.
    apply (assignAll_lookup_In (fun o => resourceUuid (concept o))
             (fun o => obsEntryValue (obs_value o)) l ∅ o Hin).
  - intros l k v Hl. unfold obsMap in Hl.
    apply (assignAll_lookup_Some (fun o => resourceUuid (concept o))
             (fun o => obsEntryValue (obs_value o))) in Hl
      as [Hempty | (o & Hin & Hk & Hv)].
    + rewrite lookup_empty in Hempty. discriminate.
    + exists o. repeat split; auto. subst v. unfold obsEntryValue.
      now destruct (obs_value o).
Qed.

Lemma latest_encounter_observations_witness :
  exists latest,
    In latest [Sample.olderEncounter; Sample.newerEncounter] /\
    (forall e, In e [Sample.olderEncounter; Sample.newerEncounter] ->
       @encounterTime Sample.collaborators (encounterDatetime e)
       <= @encounterTime Sample.collaborators (encounterDatetime latest)) /\
    @useInitialEncounters Sample.collaborators Sample.withEncounters
    = Some (obsMap (enc_obs latest)) /\
    forall fv,
      obs (@encountersEffect Sample.collaborators Sample.withEncounters fv)
      = Some (obsMap (enc_obs latest)).
Proof.
  apply (proj1 (proj2 (proj2
           (@latest_encounter_observations Sample.collaborators Sample.withEncounters)))
           (Some "p1", "registration-encounter")
           [Sample.olderEncounter; Sample.newerEncounter]).
  - reflexivity.
  - reflexivity.
  - discriminate.
Defined.

Example sample_encounter_observations :
  @useInitialEncounters Sample.collaborators Sample.withEncounters
  = Some (<["occupation-concept" := Js.Str "farmer-concept"]>
            (<["weight-concept" := Js.Num 64]> ∅)).
Proof. reflexivity. Qed.

(** ** The uuid map *)

(** When the search in the queue returns: with no core record, the fetch
    completed and an identifier supplied, the first effect of
    [usePatientUuidMap] replaces the map by the
    [initialAddressFieldValues] stored in the queued draft that
    [getPatientRegistration] finds, and by the fallback when it finds none;
    on a queue whose drafts all have form values one of the two happens;
    when the attributes have resolved, the second effect overlays, for
    every attribute, the key ["attribute." ++ attributeTypeUuid] with the
    uuid of an attribute of that type and leaves the other keys alone. *)
Lemma uuid_map_sources `{Collaborators} (src : Sources)
  (fallback patientUuidMap : gmap string string) :
  (patientToEdit src = None ->
   isLoadingPatientToEdit src = false ->
   Js.truthy (src_patientUuid src) = true ->
   (forall draft values,
      getPatientRegistration (syncItems src) (str_or_empty (src_patientUuid src))
      = Js.Returned (Some draft) ->
      initialAddressFieldValues (_patientRegistrationData draft) = Some values ->
      snd (uuidMapEffect src fallback patientUuidMap) = values) /\
   (getPatientRegistration (syncItems src) (str_or_empty (src_patientUuid src))
    = Js.Returned None ->
    snd (uuidMapEffect src fallback patientUuidMap) = fallback) /\
   (Forall (fun item => is_Some (formValues (_patientRegistrationData item)))
      (syncItems src) ->
    exists registration,
      getPatientRegistration (syncItems src) (str_or_empty (src_patientUuid src))
      = Js.Returned registration /\
      snd (uuidMapEffect src fallback patientUuidMap)
      = default fallback (initialAddressFieldValuesOf registration))) /\
  (forall attributes,
     fst (useInitialPersonAttributes src) = Some attributes ->
     uuidMapAttributesEffect src patientUuidMap
     = getPatientAttributeUuidMapForPatient attributes ∪ patientUuidMap /\
     (forall a, In a attributes ->
        exists a', In a' attributes /\
          at_uuid (attributeType a') = at_uuid (attributeType a) /\
          uuidMapAttributesEffect src patientUuidMap
            !! ("attribute." ++ at_uuid (attributeType a)) = Some (pa_uuid a')) /\
     (forall k,
        (forall a, In a attributes -> "attribute." ++ at_uuid (attributeType a) <> k) ->
        uuidMapAttributesEffect src patientUuidMap !! k = patientUuidMap !! k)).
Proof.
  split.
  - intros Hp Hl Hu. unfold uuidMapEffect. rewrite Hp, Hl, Hu. cbn [negb andb].
    split; [|split].
    + intros draft values -> Hv. cbn. now rewrite Hv.
    + intros ->. reflexivity.
    + intros Hq.
      destruct (getPatientRegistration_returns _ (str_or_empty (src_patientUuid src)) Hq)
        as [registration ->].
      exists registration. split; [reflexivity|]. cbn.
      now destruct (initialAddressFieldValuesOf registration).
  - intros attributes Ha. unfold uuidMapAttributesEffect. rewrite Ha.
    split; [reflexivity|]. split.
    + intros a Hin.
      pose proof (assignAll_lookup_In
                    (fun a => "attribute." ++ at_uuid (attributeType a)) pa_uuid
                    attributes ∅ a Hin) as [u Hu].
      pose proof Hu as Hu'.
      apply assignAll_lookup_Some in Hu' as [He | (a' & Hin' & Hk & Hv)];
        [rewrite lookup_empty in He; discriminate|].
      exists a'. split; [exact Hin'|]. split.
      * cbn beta in Hk. now apply (inj (String.app "attribute.")) in Hk.
      * unfold getPatientAttributeUuidMapForPatient.
        apply lookup_union_Some_l. now subst u.
    + intros k Hk. unfold getPatientAttributeUuidMapForPatient.
      rewrite lookup_union_r; [reflexivity|].
      pose proof (assignAll_lookup_other
                    (fun a => "attribute." ++ at_uuid (attributeType a)) pa_uuid
                    attributes ∅ k Hk) as Ho.
      unfold assignAll in Ho. rewrite Ho. apply lookup_empty.
Qed.

Lemma uuid_map_sources_witness :
  snd (@uuidMapEffect Sample.collaborators Sample.queuedOffline
         {[ "preferredNameUuid" := "fallback" ]} ∅)
  = {[ "cityVillage" := "Kampala" ]}.
Proof.
  apply (proj1 (proj1 (@uuid_map_sources Sample.collaborators Sample.queuedOffline
                         {[ "preferredNameUuid" := "fallback" ]} ∅)
                  eq_refl eq_refl eq_refl) Sample.queuedDraft);
    reflexivity.
Defined.

Example sample_attribute_uuid_entries :
  uuidMapAttributesEffect Sample.queuedOffline {[ "cityVillage" := "Kampala" ]}
  = <["attribute.civil-status-type" := "attribute-1"]> {[ "cityVillage" := "Kampala" ]}.
Proof. vm_compute. reflexivity. Qed.


(** ** The copy of the master-index values *)

(** C9.  The effect of [PatientRegistration] guarded by
    [if (initialMPIFormValues)] replaces the locally reconciled values by
    the state of the master-index hook, whatever the two states are; with
    no master-index record that state is still the default object of the
    hook, so after the mount the form values are that object, whose
    [patientUuid] is the uuid the master-index hook generated. *)
Theorem mpi_copy_always_fires `{Collaborators} :
  (forall st, initialFormValues (copyMpiEffect st) = initialMPIFormValues st) /\
  (forall st generation,
     initialFormValues (commitCopyEffect None generation st) = initialMPIFormValues st) /\
  (forall st seen generation,
     seen <> generation ->
     initialFormValues (commitCopyEffect (Some seen) generation st)
     = initialMPIFormValues st) /\
  (forall st generation, commitCopyEffect (Some generation) generation st = st) /\
  (forall src values, mpiEffect src None values = values) /\
  (forall localUuid mpiUuid,
     initialFormValues (copyMpiEffect (mountState localUuid mpiUuid))
     = defaultFormValues mpiUuid /\
     patientUuid (initialFormValues (copyMpiEffect (mountState localUuid mpiUuid)))
     = mpiUuid).
Proof.
  split; [|split; [|split; [|split; [|split]]]].
  - intros st. reflexivity.
  - intros st generation. reflexivity.
  - intros st seen generation Hne. unfold commitCopyEffect, mpiStateChanged.
    apply Nat.eqb_neq in Hne. now rewrite Hne.
  - intros st generation. unfold commitCopyEffect, mpiStateChanged.
    now rewrite Nat.eqb_refl.
  - intros src values. reflexivity.
  - intros localUuid mpiUuid. split; reflexivity.
Qed.

Lemma mpi_copy_always_fires_witness :
  initialFormValues
    (commitCopyEffect (Some 0%nat) 1%nat
       {| initialFormValues := defaultFormValues "local";
          initialMPIFormValues := defaultFormValues "mpi" |})
  = defaultFormValues "mpi".
Proof.
  apply (proj1 (proj2 (proj2 (@mpi_copy_always_fires Sample.collaborators)))
           {| initialFormValues := defaultFormValues "local";
              initialMPIFormValues := defaultFormValues "mpi" |} 0%nat 1%nat).
  discriminate.
Defined.

(** ** Identifier keys *)

(** [match_all] never runs out of fuel: any two amounts above the length
    of the input give the same matches. *)
Lemma match_all_fuel (r : Regex.re) : forall fuel1 fuel2 prev l,
  (length l < fuel1)%nat -> (length l < fuel2)%nat ->
  Regex.match_all fuel1 r prev l = Regex.match_all fuel2 r prev l.
Proof.
  induction fuel1 as [|fuel1 IH]; intros fuel2 prev l H1 H2; [lia|].
  destruct fuel2 as [|fuel2]; [lia|].
  destruct l as [|c l]; [reflexivity|].
  cbn [Regex.match_all]. cbn [length] in H1, H2.
  destruct (Regex.exec r prev (c :: l)) as [[prev' rest]|].
  - destruct (length (c :: l) - length rest)%nat eqn:En.
    + f_equal. apply IH; lia.
    + f_equal. cbn [length] in En. apply IH; lia.
  - apply IH; lia.
Qed.

Lemma run_Alt_None {R} (r1 r2 : Regex.re) prev l
  (k : option ascii -> list ascii -> option R) :
  Regex.run (Regex.Alt r1 r2) prev l k = None -> Regex.run r2 prev l k = None.
Proof. simpl. destruct (Regex.run r1 prev l k); [discriminate | auto]. Qed.

(** A name in which [reHasUnicodeWord] finds nothing is made of letters,
    digits and blanks. *)
Lemma plain_name_chars l :
  Lodash.hasUnicodeWord l = false -> Forall (fun c => Lodash.plainChar c = true) l.
Proof.
  unfold Lodash.hasUnicodeWord. generalize (@None ascii) as prev.
  induction l as [|c l IH]; intros prev Ht; [constructor|].
  simpl in Ht.
  destruct (Regex.exec Lodash.reHasUnicodeWord prev (c :: l)) eqn:E; [discriminate|].
  constructor; [|now apply (IH (Some c))].
  unfold Regex.exec, Lodash.reHasUnicodeWord in E. cbn [Regex.alts] in E.
  do 4 apply run_Alt_None in E.
  cbn [Regex.run] in E. unfold Regex.non in E.
  destruct (Lodash.plainChar c); [reflexivity | discriminate].
Qed.

Lemma plainChar_facts (c : ascii) :
  Lodash.plainChar c = true ->
  Lodash.apos c = false /\ Lodash.asciiWordChar c = negb (Ascii.eqb c " ").
Proof.
  destruct c as [[] [] [] [] [] [] [] []]; vm_compute; intros Hc;
    first [discriminate Hc | split; reflexivity].
Qed.

Lemma dropApos_plain l :
  Forall (fun c => Lodash.plainChar c = true) l -> Lodash.dropApos l = l.
Proof.
  unfold Lodash.dropApos.
  induction 1 as [|c l Hc _ IH]; [reflexivity|].
  cbn [List.filter]. destruct (plainChar_facts c Hc) as [-> _]. cbn [negb].
  now rewrite IH.
Qed.

Lemma runs_from_ext (p q : ascii -> bool) l :
  Forall (fun c => p c = q c) l ->
  forall cur, Str.runs_from p cur l = Str.runs_from q cur l.
Proof.
  induction 1 as [|c l Hc _ IH]; intros cur; [reflexivity|].
  simpl. rewrite Hc. destruct (q c); now rewrite IH.
Qed.

(** The result of [camelCase] is a function of the lower-cased words. *)
Lemma compound_lower ws1 : forall ws2 result first,
  map Str.toLowerCase ws1 = map Str.toLowerCase ws2 ->
  Lodash.compound result first ws1 = Lodash.compound result first ws2.
Proof.
  induction ws1 as [|w1 ws1 IH]; intros [|w2 ws2] result first Hm;
    try discriminate; [reflexivity|].
  injection Hm as Hw Hws. simpl. unfold Lodash.camelStep, Lodash.capitalize.
  rewrite Hw. now apply IH.
Qed.

Lemma camelCase_plain name :
  Lodash.hasUnicodeWord (list_ascii_of_string name) = false ->
  Lodash.camelCase name
  = string_of_list_ascii (Lodash.compound [] true (Str.blankSeparated name)).
Proof.
  intros Hu. pose proof (plain_name_chars _ Hu) as Hplain.
  unfold Lodash.camelCase, Lodash.words.
  rewrite (dropApos_plain _ Hplain), Hu.
  unfold Lodash.asciiWords, Str.blankSeparated, Str.runs.
  f_equal. f_equal. apply runs_from_ext.
  eapply List.Forall_impl; [|exact Hplain].
  intros c Hc. now destruct (plainChar_facts c Hc).
Qed.

Example sample_camelCase_words :
  Lodash.camelCase "Old Identification Number" = "oldIdentificationNumber" /\
  Lodash.camelCase "OpenMRS ID" = "openMrsId" /\
  Lodash.camelCase "ID card" = "idCard" /\
  Lodash.camelCase "SSN-2 / 3rd copy" = "ssn23rdCopy".
Proof. repeat split; vm_compute; reflexivity. Qed.

(** The claim of C8 as it stands fails: two type names that differ only in
    letter case are stored under different keys. *)
Lemma keys_differ_for_same_letters :
  Str.toLowerCase (list_ascii_of_string "OpenMRS ID")
  = Str.toLowerCase (list_ascii_of_string "Openmrs ID") /\
  identifierKey (Sample.identifierOfType "OpenMRS ID") = "openMrsId" /\
  identifierKey (Sample.identifierOfType "Openmrs ID") = "openmrsId" /\
  identifierKey (Sample.identifierOfType "OpenMRS ID")
  <> identifierKey (Sample.identifierOfType "Openmrs ID").
Proof.
  split; [vm_compute; reflexivity|].
  split; [vm_compute; reflexivity|].
  split; [vm_compute; reflexivity|].
  vm_compute. discriminate.
Qed.

(** C8, amended.  The key of an identifier is lodash's [camelCase] of the
    name of its type.  Two names in which lodash finds no word boundary
    other than blanks (no lower-case letter before a capital, no two
    capitals before a lower-case letter, no digit next to a letter, only
    letters, digits and blanks) and whose blank-separated words agree up
    to letter case have the same key; so have ["National ID"] and
    ["National Id"].  Every identifier returned has a record under its
    key, and every record of the map starts with [initialValue] equal to
    [identifierValue], [selectedSource] null and [autoGeneration] false. *)
Theorem identifier_keys_and_records :
  (forall pid1 pid2,
     let name1 := it_name (identifierType pid1) in
     let name2 := it_name (identifierType pid2) in
     Lodash.hasUnicodeWord (list_ascii_of_string name1) = false ->
     Lodash.hasUnicodeWord (list_ascii_of_string name2) = false ->
     map Str.toLowerCase (Str.blankSeparated name1)
     = map Str.toLowerCase (Str.blankSeparated name2) ->
     identifierKey pid1 = identifierKey pid2) /\
  (Lodash.camelCase "National ID" = "nationalId" /\
   Lodash.camelCase "National Id" = "nationalId") /\
  (forall results pid,
     In pid results -> is_Some (identifierMap (Some results) !! identifierKey pid)) /\
  (forall results key record,
     identifierMap results !! key = Some record ->
     initialValue record = identifierValue record /\
     selectedSource record = None /\
     autoGeneration record = false).
Proof.
  split; [|split; [|split]].
  - intros pid1 pid2 name1 name2 H1 H2 Hw. unfold identifierKey.
    fold name1 name2.
    rewrite (camelCase_plain _ H1), (camelCase_plain _ H2).
    f_equal. now apply compound_lower.
  - split; vm_compute; reflexivity.
  - intros results pid Hin.
    apply (assignAll_lookup_In identifierKey identifierValueOf results ∅ pid Hin).
  - intros [results|] key record Hl; unfold identifierMap in Hl;
      [|rewrite lookup_empty in Hl; discriminate].
    apply (assignAll_lookup_Some identifierKey identifierValueOf) in Hl
      as [He | (pid & _ & _ & <-)];
      [rewrite lookup_empty in He; discriminate|].
    repeat split.
Qed.

Lemma identifier_keys_and_records_witness :
  identifierKey (Sample.identifierOfType "national   id")
  = identifierKey (Sample.identifierOfType "National ID").
Proof.
  apply (proj1 identifier_keys_and_records
           (Sample.identifierOfType "national   id")
           (Sample.identifierOfType "National ID"));
    vm_compute; reflexivity.
Defined.

(** * Further properties *)

(** ** The search in the offline queue *)

Lemma getPatientRegistration_skip uuid pre rest :
  Forall (draftOfOther uuid) pre ->
  getPatientRegistration (pre ++ rest)%list uuid = getPatientRegistration rest uuid.
Proof.
  unfold getPatientRegistration.
  induction 1 as [|item pre (values & Hv & Hne) _ IH]; [reflexivity|].
  simpl. unfold matchesPatient at 1. rewrite Hv. simpl.
  apply String.eqb_neq in Hne. now rewrite Hne.
Qed.

Lemma getPatientRegistration_nothing uuid items :
  Forall (draftOfOther uuid) items ->
  getPatientRegistration items uuid = Js.Returned None.
Proof.
  intros Hall. rewrite <- (app_nil_r items).
  now rewrite (getPatientRegistration_skip uuid items [] Hall).
Qed.

Lemma getPatientRegistration_shape items uuid :
  match getPatientRegistration items uuid with
  | Js.Returned (Some d) =>
      exists pre post,
        items = (pre ++ d :: post)%list /\ Forall (draftOfOther uuid) pre /\ draftOf uuid d
  | Js.Returned None => Forall (draftOfOther uuid) items
  | Js.Thrown e =>
      e = Js.TypeError "Cannot read properties of undefined (reading 'patientUuid')" /\
      exists pre d post,
        items = (pre ++ d :: post)%list /\ Forall (draftOfOther uuid) pre /\
        formValues (_patientRegistrationData d) = None
  end.
Proof.
  unfold getPatientRegistration.
  induction items as [|item rest IH]; simpl; [constructor|].
  unfold matchesPatient at 1.
  destruct (formValues (_patientRegistrationData item)) as [values|] eqn:Hv; simpl.
  - destruct (String.eqb_spec (patientUuid values) uuid) as [Heq|Hne].
    + exists [], rest. split; [reflexivity|]. split; [constructor|].
      exists values. auto.
    + assert (Hother : draftOfOther uuid item) by (exists values; auto).
      destruct (find (matchesPatient uuid) rest) as [[d|]|e].
      * destruct IH as (pre & post & -> & Hpre & Hd).
        exists (item :: pre), post. repeat split; auto.
      * now constructor.
      * destruct IH as (-> & pre & d & post & -> & Hpre & Hd).
        split; [reflexivity|]. exists (item :: pre), d, post. repeat split; auto.
  - split; [reflexivity|]. exists [], item, rest. repeat split; auto.
Qed.

(** X1.  [getPatientRegistration] returns the first draft with the form
    values of the patient provided every draft before it has form values;
    it returns nothing exactly when every draft has form values of
    another patient; and it throws exactly when a draft without form
    values comes before any draft of the patient. *)
Theorem getPatientRegistration_cases (items : list PatientRegistration) (uuid : string) :
  (forall d,
     getPatientRegistration items uuid = Js.Returned (Some d) <->
     exists pre post,
       items = (pre ++ d :: post)%list /\ Forall (draftOfOther uuid) pre /\ draftOf uuid d) /\
  (getPatientRegistration items uuid = Js.Returned None <->
   Forall (draftOfOther uuid) items) /\
  (forall e,
     getPatientRegistration items uuid = Js.Thrown e <->
     e = Js.TypeError "Cannot read properties of undefined (reading 'patientUuid')" /\
     exists pre d post,
       items = (pre ++ d :: post)%list /\ Forall (draftOfOther uuid) pre /\
       formValues (_patientRegistrationData d) = None).
Proof.
  pose proof (getPatientRegistration_shape items uuid) as Hshape.
  split; [|split].
  - intros d. split.
    + intros Hr. rewrite Hr in Hshape. exact Hshape.
    + intros (pre & post & -> & Hpre & values & Hv & Hu).
      rewrite (getPatientRegistration_skip uuid pre _ Hpre).
      unfold getPatientRegistration. simpl. unfold matchesPatient at 1.
      rewrite Hv. simpl. apply String.eqb_eq in Hu. now rewrite Hu.
  - split.
    + intros Hr. rewrite Hr in Hshape. exact Hshape.
    + apply getPatientRegistration_nothing.
  - intros e. split.
    + intros Hr. rewrite Hr in Hshape. exact Hshape.
    + intros (-> & pre & d & post & -> & Hpre & Hd).
      rewrite (getPatientRegistration_skip uuid pre _ Hpre).
      unfold getPatientRegistration. simpl. unfold matchesPatient at 1.
      now rewrite Hd.
Qed.

Lemma getPatientRegistration_cases_witness :
  getPatientRegistration [Sample.queuedDraftOfOther; Sample.queuedDraft] "p1"
  = Js.Returned (Some Sample.queuedDraft).
Proof.
  apply (proj2 (proj1 (getPatientRegistration_cases
                         [Sample.queuedDraftOfOther; Sample.queuedDraft] "p1")
                  Sample.queuedDraft)).
  exists [Sample.queuedDraftOfOther], []. split; [reflexivity|]. split.
  - constructor; [|constructor]. exists (defaultFormValues "p7").
    split; [reflexivity | discriminate].
  - exists (defaultFormValues "p1"). split; reflexivity.
Defined.

(** X2.  Without a core record the first effect of
    [useInitialFormValuesLocal] either leaves the state as it is or
    replaces it by the form values of a queued draft whose [patientUuid]
    is the requested identifier; it replaces it, by the values of the
    first such draft, whenever the drafts before that one have form
    values. *)
Theorem draft_adopted_verbatim `{Collaborators} (src : Sources) (fv : FormValues) :
  patientToEdit src = None ->
  (snd (coreRecordEffect src fv) = fv \/
   (patientUuid (snd (coreRecordEffect src fv)) = str_or_empty (src_patientUuid src) /\
    exists item,
      In item (syncItems src) /\
      formValues (_patientRegistrationData item) = Some (snd (coreRecordEffect src fv)))) /\
  (forall pre d post values,
     isLoadingPatientToEdit src = false ->
     Js.truthy (src_patientUuid src) = true ->
     syncItems src = (pre ++ d :: post)%list ->
     Forall (draftOfOther (str_or_empty (src_patientUuid src))) pre ->
     formValues (_patientRegistrationData d) = Some values ->
     patientUuid values = str_or_empty (src_patientUuid src) ->
     coreRecordEffect src fv = ([GetSynchronizationItems], values)).
Proof.
  intros Hp. unfold coreRecordEffect. rewrite Hp. split.
  - destruct (negb (isLoadingPatientToEdit src) && Js.truthy (src_patientUuid src));
      [|now left].
    unfold adoptQueuedDraft.
    destruct (getPatientRegistration _ _) as [[r|]|e] eqn:E; simpl; try (now left).
    apply find_matchesPatient_Some in E as (Hin & values & Hv & Hu).
    rewrite Hv. simpl. right. split; [exact Hu|]. exists r. auto.
  - intros pre d post values -> -> Hq Hpre Hv Hu. cbn [negb andb].
    unfold adoptQueuedDraft. rewrite Hq.
    rewrite (getPatientRegistration_skip _ pre _ Hpre).
    unfold getPatientRegistration. simpl. unfold matchesPatient at 1.
    rewrite Hv. simpl. apply String.eqb_eq in Hu. rewrite Hu. simpl.
    now rewrite Hv.
Qed.

Lemma draft_adopted_verbatim_witness :
  @coreRecordEffect Sample.collaborators Sample.queuedOffline (defaultFormValues "u")
  = ([GetSynchronizationItems], defaultFormValues "p1").
Proof.
  apply (proj2 (@draft_adopted_verbatim Sample.collaborators Sample.queuedOffline
                  (defaultFormValues "u") eq_refl)
           [Sample.queuedDraftOfOther] Sample.queuedDraft []);
    try reflexivity.
  constructor; [|constructor]. exists (defaultFormValues "p7").
  split; [reflexivity | discriminate].
Defined.

(** X3.  When the queue holds only drafts of other patients, the address
    hook and the uuid-map hook fall back to the caller's value without an
    exception, while the form-values hook ends in an unhandled
    [TypeError] and keeps its state. *)
Theorem missing_draft_in_the_three_hooks `{Collaborators} (src : Sources)
  (fv : FormValues) (addressFallback addressState : gmap string AddressFieldValue)
  (mapFallback mapState : gmap string string) :
  patientToEdit src = None ->
  isLoadingPatientToEdit src = false ->
  Js.truthy (src_patientUuid src) = true ->
  Forall (draftOfOther (str_or_empty (src_patientUuid src))) (syncItems src) ->
  addressFieldsEffect src addressFallback addressState
  = ([GetSynchronizationItems], addressFallback) /\
  uuidMapEffect src mapFallback mapState = ([GetSynchronizationItems], mapFallback) /\
  coreRecordEffect src fv
  = ([GetSynchronizationItems;
      UnhandledRejection
        (Js.TypeError
           "Cannot read properties of undefined (reading '_patientRegistrationData')")],
     fv).
Proof.
  intros Hp Hl Hu Hall.
  apply getPatientRegistration_nothing in Hall.
  unfold addressFieldsEffect, uuidMapEffect, coreRecordEffect, adoptQueuedDraft.
  rewrite Hp, Hl, Hu, Hall. repeat split.
Qed.

Lemma missing_draft_in_the_three_hooks_witness :
  @addressFieldsEffect Sample.collaborators Sample.unknownPatient ∅ ∅
  = ([GetSynchronizationItems], ∅).
Proof.
  apply (@missing_draft_in_the_three_hooks Sample.collaborators Sample.unknownPatient
           (defaultFormValues "u") ∅ ∅ ∅ ∅);
    try reflexivity.
  constructor.
Defined.

(** ** Effects that run again *)

(** X4.  The first effect of [usePatientUuidMap] and the effect of
    [useInitialAddressFieldValues] list their own state among their
    dependencies and so run again after they set it: the second run
    leaves the value the first one produced. *)
Theorem state_effects_settle `{Collaborators} (src : Sources)
  (mapFallback mapState : gmap string string)
  (addressFallback addressState : gmap string AddressFieldValue) :
  snd (uuidMapEffect src mapFallback (snd (uuidMapEffect src mapFallback mapState)))
  = snd (uuidMapEffect src mapFallback mapState) /\
  snd (addressFieldsEffect src addressFallback
         (snd (addressFieldsEffect src addressFallback addressState)))
  = snd (addressFieldsEffect src addressFallback addressState).
Proof.
  unfold uuidMapEffect, addressFieldsEffect.
  destruct (patientToEdit src) as [patient|]; cbn [snd].
  - split.
    + rewrite (assoc_L (∪)). now rewrite (idemp_L (∪)).
    + apply insert_insert_eq.
  - destruct (negb (isLoadingPatientToEdit src) && Js.truthy (src_patientUuid src));
      [|split; reflexivity].
    destruct (getPatientRegistration _ _) as [registration|e]; split; reflexivity.
Qed.

(** X5.  In edit mode the two effects of [usePatientUuidMap] can run in
    either order, provided the map read from the core record has none of
    the attribute keys. *)
Theorem uuid_map_effects_commute `{Collaborators} (src : Sources)
  (patient : FhirPatient) (attributes : list PersonAttributeResponse)
  (fallback patientUuidMap : gmap string string) :
  patientToEdit src = Some patient ->
  fst (useInitialPersonAttributes src) = Some attributes ->
  (forall a, In a attributes ->
     getPatientUuidMapFromFhirPatient patient
       !! ("attribute." ++ at_uuid (attributeType a)) = None) ->
  uuidMapAttributesEffect src (snd (uuidMapEffect src fallback patientUuidMap))
  = snd (uuidMapEffect src fallback (uuidMapAttributesEffect src patientUuidMap)).
Proof.
  intros Hp Ha Hkeys. unfold uuidMapAttributesEffect, uuidMapEffect.
  rewrite Hp, Ha. cbn [snd].
  rewrite !(assoc_L (∪)). f_equal.
  apply map_union_comm. apply map_disjoint_spec.
  intros k u v Hu Hv.
  unfold getPatientAttributeUuidMapForPatient in Hu.
  apply (assignAll_lookup_Some
           (fun a => "attribute." ++ at_uuid (attributeType a)) pa_uuid) in Hu
    as [He | (a & Hin & Hk & _)].
  - rewrite lookup_empty in He. discriminate.
  - cbn beta in Hk. subst k. rewrite (Hkeys a Hin) in Hv. discriminate.
Qed.

Lemma uuid_map_effects_commute_witness :
  uuidMapAttributesEffect
    (Sample.sources (Some "p1") (Some (Sample.patient "1990")) None
       (Some [Sample.civilStatus]) None None None [])
    (snd (@uuidMapEffect Sample.collaborators
            (Sample.sources (Some "p1") (Some (Sample.patient "1990")) None
               (Some [Sample.civilStatus]) None None None []) ∅ ∅))
  = snd (@uuidMapEffect Sample.collaborators
           (Sample.sources (Some "p1") (Some (Sample.patient "1990")) None
              (Some [Sample.civilStatus]) None None None []) ∅
           (uuidMapAttributesEffect
              (Sample.sources (Some "p1") (Some (Sample.patient "1990")) None
                 (Some [Sample.civilStatus]) None None None []) ∅)).
Proof.
  apply (@uuid_map_effects_commute Sample.collaborators
           (Sample.sources (Some "p1") (Some (Sample.patient "1990")) None
              (Some [Sample.civilStatus]) None None None [])
           (Sample.patient "1990") [Sample.civilStatus] ∅ ∅ eq_refl eq_refl).
  intros a [<-|[]]. reflexivity.
Defined.

(** ** Maps built by a loop of assignments, continued *)

Lemma assignAll_snoc {A V : Type} (key : A -> string) (val : A -> V) l x m :
  assignAll key val (l ++ [x])%list m = <[key x := val x]> (assignAll key val l m).
Proof. unfold assignAll. now rewrite fold_left_app. Qed.

(** The entry of a key is the one assigned last. *)
Lemma assignAll_last_wins {A V : Type} (key : A -> string) (val : A -> V) l m k :
  assignAll key val l m !! k
  = match List.find (fun x => String.eqb (key x) k) (rev l) with
    | Some x => Some (val x)
    | None => m !! k
    end.
Proof.
  induction l as [|x l IH] using rev_ind; [reflexivity|].
  rewrite assignAll_snoc, rev_unit. cbn [List.find].
  destruct (String.eqb_spec (key x) k) as [->|Hne].
  - apply lookup_insert_eq.
  - rewrite lookup_insert_ne by assumption. exact IH.
Qed.

Lemma assignAll_key_present {A V : Type} (key : A -> string) (val : A -> V) l k :
  is_Some (assignAll key val l ∅ !! k) <-> In k (map key l).
Proof.
  split.
  - intros [v Hv].
    apply assignAll_lookup_Some in Hv as [He | (x & Hin & <- & _)].
    + rewrite lookup_empty in He. discriminate.
    + now apply in_map.
  - intros Hin. apply in_map_iff in Hin as (x & <- & Hin).
    now apply assignAll_lookup_In.
Qed.

Lemma assignAll_size {A V : Type} (key : A -> string) (val : A -> V) l :
  (size (assignAll key val l ∅) <= length l)%nat /\
  (size (assignAll key val l ∅) = length l <-> List.NoDup (map key l)).
Proof.
  induction l as [|x l [IHle IHeq]] using rev_ind.
  - split; [reflexivity|]. split; [constructor | reflexivity].
  - rewrite assignAll_snoc, length_app, map_app. cbn [length map].
    pose proof (assignAll_key_present key val l (key x)) as Hpresent.
    assert (Hnodup : List.NoDup (map key l ++ [key x])
                     <-> List.NoDup (map key l) /\ ~ In (key x) (map key l)).
    { split.
      - intros Hnd. apply NoDup_remove in Hnd as [Hnd Hnot].
        rewrite app_nil_r in Hnd, Hnot. auto.
      - intros [Hnd Hnot]. apply NoDup_rev in Hnd.
        rewrite <- (rev_involutive (map key l ++ [key x])).
        apply NoDup_rev. rewrite rev_unit. constructor; [|exact Hnd].
        now rewrite <- in_rev. }
    destruct (assignAll key val l ∅ !! key x) as [v|] eqn:Hlook.
    + rewrite map_size_insert_Some by eauto.
      split; [lia|]. split; [lia|].
      intros Hnd. apply Hnodup in Hnd as [_ Hnot].
      exfalso. apply Hnot, Hpresent. eauto.
    + rewrite map_size_insert_None by assumption.
      split; [lia|]. rewrite Hnodup. split.
      * intros Hs. split; [apply IHeq; lia|].
        intros Hin. apply Hpresent in Hin as [v Hv]. congruence.
      * intros [Hnd _]. apply IHeq in Hnd. lia.
Qed.

(** X6.  In each of the four maps the hooks build with a loop
    (identifiers, person attributes, observations, attribute uuids) the
    entry under a key comes from the last element of the list that has
    this key; earlier ones are overwritten. *)
Theorem later_entries_overwrite :
  (forall results k,
     identifierMap (Some results) !! k
     = identifierValueOf
         <$> List.find (fun pid => String.eqb (identifierKey pid) k) (rev results)) /\
  (forall attributes k,
     personAttributes attributes !! k
     = personAttributeValue
         <$> List.find (fun a => String.eqb (at_uuid (attributeType a)) k)
               (rev attributes)) /\
  (forall observations k,
     obsMap observations !! k
     = (fun o => obsEntryValue (obs_value o))
         <$> List.find (fun o => String.eqb (resourceUuid (concept o)) k)
               (rev observations)) /\
  (forall attributes k,
     getPatientAttributeUuidMapForPatient attributes !! k
     = pa_uuid
         <$> List.find
               (fun a => String.eqb ("attribute." ++ at_uuid (attributeType a)) k)
               (rev attributes)).
Proof.
  split; [|split; [|split]]; intros l k.
  - etransitivity;
      [exact (assignAll_last_wins identifierKey identifierValueOf l ∅ k)|].
    now destruct (List.find _ _).
  - etransitivity;
      [exact (assignAll_last_wins (fun a => at_uuid (attributeType a))
                personAttributeValue l ∅ k)|].
    now destruct (List.find _ _).
  - etransitivity;
      [exact (assignAll_last_wins (fun o => resourceUuid (concept o))
                (fun o => obsEntryValue (obs_value o)) l ∅ k)|].
    now destruct (List.find _ _).
  - etransitivity;
      [exact (assignAll_last_wins
                (fun a => "attribute." ++ at_uuid (attributeType a)) pa_uuid l ∅ k)|].
    now destruct (List.find _ _).
Qed.

(** X7.  The identifier map has at most one record per identifier
    returned, and exactly one per identifier if and only if no two of the
    identifiers have type names with the same camel-case key; then every
    identifier is found under its key with its own record. *)
Theorem identifier_map_loses_nothing_iff_keys_differ
  (results : list PatientIdentifierResponse) :
  (size (identifierMap (Some results)) <= length results)%nat /\
  (size (identifierMap (Some results)) = length results
   <-> List.NoDup (map identifierKey results)) /\
  (List.NoDup (map identifierKey results) ->
   forall pid, In pid results ->
     identifierMap (Some results) !! identifierKey pid = Some (identifierValueOf pid)).
Proof.
  pose proof (assignAll_size identifierKey identifierValueOf results) as [Hle Heq].
  split; [exact Hle|]. split; [exact Heq|].
  intros Hnd pid Hin.
  destruct (assignAll_lookup_In identifierKey identifierValueOf results ∅ pid Hin)
    as [record Hrecord].
  unfold identifierMap. change (fold_left _ results ∅)
    with (assignAll identifierKey identifierValueOf results ∅).
  rewrite Hrecord. f_equal.
  apply assignAll_lookup_Some in Hrecord as [He | (pid' & Hin' & Hk & <-)];
    [rewrite lookup_empty in He; discriminate|].
  f_equal. clear - Hnd Hin Hin' Hk.
  induction results as [|x l IH]; [destruct Hin|].
  cbn [map] in Hnd. inversion Hnd as [|? ? Hnot Hnd']; subst.
  destruct Hin as [->|Hin], Hin' as [->|Hin']; auto.
  - exfalso. apply Hnot. rewrite <- Hk. now apply in_map.
  - exfalso. apply Hnot. rewrite Hk. now apply in_map.
Qed.

Lemma identifier_map_loses_nothing_iff_keys_differ_witness :
  identifierMap (Some [Sample.nationalId; Sample.identifierOfType "OpenMRS ID"])
    !! identifierKey Sample.nationalId
  = Some (identifierValueOf Sample.nationalId).
Proof.
  apply (proj2 (proj2 (identifier_map_loses_nothing_iff_keys_differ
                         [Sample.nationalId; Sample.identifierOfType "OpenMRS ID"]))).
  - apply (NoDup_cons_iff _ _). split.
    + vm_compute. intros [Heq|[]]. discriminate Heq.
    + constructor; [intros [] | constructor].
  - now left.
Defined.

Example sample_colliding_identifier_types :
  identifierMap (Some [Sample.nationalId; Demo.nationalIdAgain])
  = {[ "nationalId" := identifierValueOf Demo.nationalIdAgain ]}.
Proof. vm_compute. reflexivity. Qed.



(** ** A new registration *)



(** ** Merges that fire more than once *)

Lemma independent_merges_idempotent `{Collaborators} (src : Sources) (e : Effect)
  (s : FormValues) :
  independent e -> runEffect src e (runEffect src e s) = runEffect src e s.
Proof.
  unfold independent, independentMerges. simpl.
  intros [<-|[<-|[<-|[<-|[]]]]];
    unfold_merges;
    destruct (useInitialPersonDeathInfo src) as [[info|] l1];
    destruct (useInitialPatientIdentifiers src) as [ids l2];
    destruct (useInitialPersonAttributes src) as [[attrs|] l3];
    destruct (relationshipsData src) as [rels|];
    try reflexivity;
    repeat match goal with
           | |- context [if ?c then _ else _] => destruct c
           end;
    reflexivity.
Qed.

(** A step that commutes with the others and is idempotent is absorbed by
    a later run of itself. *)
Lemma fold_left_absorb {S E : Type} (step : S -> E -> S) (P : E -> Prop) :
  (forall a b s, P a -> P b -> step (step s a) b = step (step s b) a) ->
  (forall a s, P a -> step (step s a) a = step s a) ->
  forall l x s, Forall P l -> P x -> In x l ->
    fold_left step l (step s x) = fold_left step l s.
Proof.
  intros Hcomm Hidem l x.
  induction l as [|a l IH]; intros s HP Px Hin; [destruct Hin|].
  inversion HP as [|? ? Pa HP']; subst. simpl.
  destruct Hin as [->|Hin].
  - now rewrite Hidem.
  - rewrite (Hcomm x a s Px Pa). now apply IH.
Qed.

Lemma fold_left_remove_dups {S E : Type} `{EqDecision E}
  (step : S -> E -> S) (P : E -> Prop) :
  (forall a b s, P a -> P b -> step (step s a) b = step (step s b) a) ->
  (forall a s, P a -> step (step s a) a = step s a) ->
  forall l s, Forall P l -> fold_left step l s = fold_left step (remove_dups l) s.
Proof.
  intros Hcomm Hidem l.
  induction l as [|x l IH]; intros s HP; [reflexivity|].
  inversion HP as [|? ? Px HP']; subst. cbn [remove_dups fold_left].
  destruct (decide_rel elem_of x l) as [Hin|Hnot].
  - rewrite (fold_left_absorb step P Hcomm Hidem l x s HP' Px).
    + now apply IH.
    + now apply list_elem_of_In.
  - cbn [fold_left]. now apply IH.
Qed.

(** X10.  The four independent merges may fire any number of times in any
    order: as soon as each has fired at least once, the form state is the
    one a single pass over the four yields. *)
Theorem merges_may_fire_repeatedly `{Collaborators} (src : Sources)
  (order : list Effect) (fv : FormValues) :
  Forall independent order ->
  (forall e, independent e -> In e order) ->
  runEffects src order fv = runEffects src independentMerges fv.
Proof.
  intros Hall Hevery. unfold runEffects.
  rewrite (fold_left_remove_dups (fun s e => runEffect src e s) independent);
    [ | intros a b s Ha Hb; now apply independent_merges_commute
      | intros a s Ha; now apply independent_merges_idempotent
      | exact Hall ].
  apply (fold_left_commute_Permutation (fun s e => runEffect src e s) independent).
  - intros a b s Ha Hb. now apply independent_merges_commute.
  - apply NoDup_Permutation.
    + apply NoDup_remove_dups.
    + apply (proj2 (NoDup_ListNoDup _)).
      unfold independentMerges. repeat constructor; simpl; intuition discriminate.
    + intros e. rewrite elem_of_remove_dups, !list_elem_of_In. split.
      * intros He. apply (proj1 (List.Forall_forall _ _) Hall e He).
      * intros He. now apply Hevery.
  - apply List.Forall_forall. intros e He.
    rewrite <- list_elem_of_In, elem_of_remove_dups, list_elem_of_In in He.
    apply (proj1 (List.Forall_forall _ _) Hall e He).
Qed.

Lemma merges_may_fire_repeatedly_witness :
  @runEffects Sample.collaborators Sample.resolved
    [Identifiers; DeathInfo; Identifiers; Attributes; Relationships; DeathInfo]
    (defaultFormValues "u")
  = @runEffects Sample.collaborators Sample.resolved independentMerges
      (defaultFormValues "u").
Proof.
  apply (@merges_may_fire_repeatedly Sample.collaborators Sample.resolved
           [Identifiers; DeathInfo; Identifiers; Attributes; Relationships; DeathInfo]
           (defaultFormValues "u")).
  - repeat constructor; unfold independent, independentMerges; simpl; tauto.
  - intros e He. unfold independent, independentMerges in He. simpl in *.
    intuition (subst; tauto).
Defined.

(** ** The precision of the stored birthdate *)

(** X11.  The core-record merge takes the birthdate for exact precisely
    when the stored string is four digits, a hyphen, two digits, a hyphen
    and two digits, whatever the numbers are; and whenever it takes it for
    exact, both estimates are 0. *)
Theorem birthdate_exact_iff_date_shaped `{Collaborators} (src : Sources)
  (patient : FhirPatient) (fv : FormValues) :
  patientToEdit src = Some patient ->
  (birthdateEstimated (snd (coreRecordEffect src fv)) = false
   <-> dateShaped (birthDate patient)) /\
  (birthdateEstimated (snd (coreRecordEffect src fv)) = false ->
   yearsEstimated (snd (coreRecordEffect src fv)) = Js.Int 0 /\
   monthsEstimated (snd (coreRecordEffect src fv)) = Js.Int 0).
Proof.
  intros Hp. unfold coreRecordEffect. rewrite Hp. cbn [snd].
  unfold coreRecordValues.
  cbn [birthdateEstimated yearsEstimated monthsEstimated withBirthdateEstimate].
  rewrite <- reFullDate_test.
  destruct (Regex.test reFullDate (birthDate patient)); cbn [negb andb].
  - split; [tauto|]. intros _. split; reflexivity.
  - split; [split; discriminate | discriminate].
Qed.

Lemma birthdate_exact_iff_date_shaped_witness :
  birthdateEstimated
    (snd (@coreRecordEffect Sample.collaborators (Sample.editing "1990-99-99")
            (defaultFormValues "u")))
  = false.
Proof.
  apply (proj2 (proj1 (@birthdate_exact_iff_date_shaped Sample.collaborators
                         (Sample.editing "1990-99-99") (Sample.patient "1990-99-99")
                         (defaultFormValues "u") eq_refl))).
  exists "1"%char, "9"%char, "9"%char, "0"%char, "9"%char, "9"%char, "9"%char, "9"%char.
  split; [reflexivity|]. repeat constructor.
Defined.

(** X12.  A stored birthdate without a hyphen is estimated with 0 months,
    whatever the months dayjs counts; one with a hyphen that is not a
    complete date is estimated with the remainder of those months by 12;
    in both cases the years are the floor of a twelfth of them. *)
Theorem birthdate_estimate_by_precision `{Collaborators} (src : Sources)
  (patient : FhirPatient) (fv : FormValues) :
  patientToEdit src = Some patient ->
  (~ In "-"%char (list_ascii_of_string (birthDate patient)) ->
   birthdateEstimated (snd (coreRecordEffect src fv)) = true /\
   yearsEstimated (snd (coreRecordEffect src fv))
   = Js.floor_div (dayjs_diff_month (birthDate patient)) 12 /\
   monthsEstimated (snd (coreRecordEffect src fv)) = Js.Int 0) /\
  (In "-"%char (list_ascii_of_string (birthDate patient)) ->
   ~ dateShaped (birthDate patient) ->
   birthdateEstimated (snd (coreRecordEffect src fv)) = true /\
   yearsEstimated (snd (coreRecordEffect src fv))
   = Js.floor_div (dayjs_diff_month (birthDate patient)) 12 /\
   monthsEstimated (snd (coreRecordEffect src fv))
   = Js.rem (dayjs_diff_month (birthDate patient)) 12).
Proof.
  intros Hp. unfold coreRecordEffect. rewrite Hp. cbn [snd].
  unfold coreRecordValues.
  cbn [birthdateEstimated yearsEstimated monthsEstimated withBirthdateEstimate].
  pose proof (reFullDate_test (birthDate patient)) as Htest.
  pose proof (split_several "-" (birthDate patient)) as Hsplit.
  split.
  - intros Hno.
    assert (Hnot : Regex.test reFullDate (birthDate patient) = false).
    { destruct (Regex.test reFullDate (birthDate patient)); [|reflexivity].
      destruct (proj1 Htest eq_refl) as (y1 & y2 & y3 & y4 & m1 & m2 & d1 & d2 & Hl & _).
      exfalso. apply Hno. rewrite Hl. simpl. tauto. }
    rewrite Hnot. cbn [negb andb].
    destruct (1 <? length (Str.split "-" (birthDate patient)))%nat;
      [exfalso; apply Hno; now apply Hsplit|].
    repeat split.
  - intros Hin Hshape.
    destruct (Regex.test reFullDate (birthDate patient));
      [exfalso; apply Hshape; now apply Htest|].
    rewrite (proj2 Hsplit Hin). repeat split.
Qed.

Lemma birthdate_estimate_by_precision_witness :
  monthsEstimated
    (snd (@coreRecordEffect Sample.collaborators (Sample.editing "199006")
            (defaultFormValues "u")))
  = Js.Int 0.
Proof.
  apply (proj1 (@birthdate_estimate_by_precision Sample.collaborators
                  (Sample.editing "199006") (Sample.patient "199006")
                  (defaultFormValues "u") eq_refl)).
  simpl. intuition discriminate.
Defined.

(** ** The sections of the form *)

Lemma sectionWithId_Some name definitions s :
  sectionWithId name definitions = Some s ->
  section_id s = name /\ In s definitions.
Proof.
  unfold sectionWithId. intros Hh.
  assert (Hin : In s (List.filter (fun s => String.eqb (section_id s) name) definitions)).
  { destruct (List.filter _ definitions) as [|x l]; [discriminate|].
    injection Hh as ->. now left. }
  apply filter_In in Hin as [Hin Heq]. apply String.eqb_eq in Heq. auto.
Qed.

Lemma sectionWithId_None name definitions :
  sectionWithId name definitions = None <->
  existsb (fun s => String.eqb (section_id s) name) definitions = false.
Proof.
  unfold sectionWithId.
  induction definitions as [|d l IH]; simpl; [tauto|].
  destruct (String.eqb (section_id d) name); simpl; [split; discriminate | exact IH].
Qed.

(** X13.  The sections shown are, in the configured order, one per
    configured name that has a definition, custom or built-in; names
    without a definition are left out; and the section shown for a name
    is the first custom definition with this id, or, when there is no
    custom one, the first built-in definition with this id. *)
Theorem sections_follow_configuration
  (names : list string) (custom builtIn : list SectionDefinition) :
  map section_id (sections names custom builtIn)
  = List.filter
      (fun name =>
         existsb (fun s => String.eqb (section_id s) name) (custom ++ builtIn)%list)
      names /\
  (forall s, In s (sections names custom builtIn) ->
     In (section_id s) names /\
     (sectionWithId (section_id s) custom = Some s \/
      (sectionWithId (section_id s) custom = None /\
       sectionWithId (section_id s) builtIn = Some s))).
Proof.
  unfold sections. split.
  - induction names as [|name names IH]; [reflexivity|].
    cbn [map omap List.filter]. rewrite existsb_app.
    destruct (sectionWithId name custom) as [s|] eqn:Hc.
    + destruct (sectionWithId_Some _ _ _ Hc) as [Hid Hin].
      assert (Hex : existsb (fun s => String.eqb (section_id s) name) custom = true).
      { destruct (existsb _ custom) eqn:E; [reflexivity|].
        apply sectionWithId_None in E. congruence. }
      rewrite Hex. cbn. now rewrite Hid, <- IH.
    + rewrite (proj1 (sectionWithId_None _ _) Hc). cbn [orb].
      destruct (sectionWithId name builtIn) as [s|] eqn:Hb.
      * destruct (sectionWithId_Some _ _ _ Hb) as [Hid Hin].
        assert (Hex : existsb (fun s => String.eqb (section_id s) name) builtIn = true).
        { destruct (existsb _ builtIn) eqn:E; [reflexivity|].
          apply sectionWithId_None in E. congruence. }
        rewrite Hex. cbn. now rewrite Hid, <- IH.
      * rewrite (proj1 (sectionWithId_None _ _) Hb). cbn. exact IH.
  - intros s Hin.
    induction names as [|name names IH]; [destruct Hin|].
    cbn [map omap] in Hin.
    destruct (sectionWithId name custom) as [s1|] eqn:Hc.
    + cbn in Hin. destruct Hin as [<-|Hin].
      * destruct (sectionWithId_Some _ _ _ Hc) as [Hid _]. rewrite Hid.
        split; [now left | now left].
      * destruct (IH Hin) as [Hn Hs]. split; [now right | exact Hs].
    + destruct (sectionWithId name builtIn) as [s2|] eqn:Hb.
      * cbn in Hin. destruct Hin as [<-|Hin].
        -- destruct (sectionWithId_Some _ _ _ Hb) as [Hid _]. rewrite Hid.
           split; [now left | right; auto].
        -- destruct (IH Hin) as [Hn Hs]. split; [now right | exact Hs].
      * cbn in Hin. destruct (IH Hin) as [Hn Hs]. split; [now right | exact Hs].
Qed.

Lemma sections_follow_configuration_witness :
  In "contact" ["contact"; "relationships"; "demographics"] /\
  (sectionWithId "contact" [Demo.customContactSection] = Some Demo.customContactSection \/
   (sectionWithId "contact" [Demo.customContactSection] = None /\
    sectionWithId "contact" [Demo.demographicsSection; Demo.contactSection]
    = Some Demo.customContactSection)).
Proof.
  apply (proj2 (sections_follow_configuration
                  ["contact"; "relationships"; "demographics"]
                  [Demo.customContactSection]
                  [Demo.demographicsSection; Demo.contactSection])
           Demo.customContactSection).
  vm_compute. now left.
Defined.

Example sample_sections :
  sections ["contact"; "relationships"; "demographics"]
    [Demo.customContactSection] [Demo.demographicsSection; Demo.contactSection]
  = [Demo.customContactSection; Demo.demographicsSection].
Proof. reflexivity. Qed.

(** ** Submitting the form *)

(** X14.  [savePatientForm] is told that the patient is new unless the
    patient to edit has been loaded: also while it is still loading.  The
    success message agrees with that flag, and the redirect goes to the
    [afterUrl] of the query when there is one, else to the configured
    link. *)
Theorem submit_as_new_unless_loaded `{UiCollaborators}
  (isLoading : bool) (uuid : option string) (patient : option FhirPatient)
  (afterUrl : option string) (submitButton : string)
  (patientUuidMap : gmap string string) (initialValues values : FormValues) :
  let flag := inEditMode isLoading uuid patient in
  let events :=
    onFormSubmit flag afterUrl submitButton patientUuidMap initialValues values None in
  (exists saved rest,
     events
     = SetSubmitting true
       :: SavePatientForm (flagNot flag) saved patientUuidMap (identifiers initialValues)
       :: rest) /\
  (flagNot flag = false <->
   isLoading = false /\ Js.truthy uuid = true /\ is_Some patient) /\
  (flagNot flag = true ->
   snackbarsOf events
   = [ {| sb_kind := KindSuccess;
          sb_title := t "registerPatientSuccessSnackbarTitle" "New Patient Created";
          sb_subtitle :=
            t "registerPatientSuccessSnackbarSubtitle"
              "The patient can now be found by searching for them using their name or ID number";
          sb_isLowContrast := true |} ]) /\
  (flagNot flag = false ->
   snackbarsOf events
   = [ {| sb_kind := KindSuccess;
          sb_title := t "updatePatientSuccessSnackbarTitle" "Patient Details Updated";
          sb_subtitle :=
            t "updatePatientSuccessSnackbarSubtitle"
              "The patient's information has been successfully updated";
          sb_isLowContrast := true |} ]) /\
  (forall url, afterUrl = Some url -> url <> "" ->
     In (SetTarget (interpolateUrl url (patientUuid values))) events) /\
  (Js.truthy afterUrl = false ->
   In (SetTarget (interpolateUrl submitButton (patientUuid values))) events).
Proof.
  intros flag events. subst flag events. unfold onFormSubmit.
  split; [eexists; eexists; reflexivity|].
  split.
  { unfold flagNot, flagTruthy, inEditMode.
    destruct isLoading, (Js.truthy uuid), patient as [p|]; cbn;
      (split;
       [ intros Hq; try discriminate Hq; repeat split; eauto
       | intros (H1 & H2 & [q Hq]); try discriminate; reflexivity ]). }
  unfold snackbarsOf, successSnackbar, flagNot. cbn.
  split; [|split; [|split]].
  - intros Hf. apply negb_true_iff in Hf. now rewrite Hf.
  - intros Hf. apply negb_false_iff in Hf. now rewrite Hf.
  - intros url -> Hne. cbn. apply String.eqb_neq in Hne. rewrite Hne. cbn. auto.
  - intros ->. auto.
Qed.

Lemma submit_as_new_unless_loaded_witness :
  snackbarsOf
    (@onFormSubmit Demo.ui (inEditMode true (Some "p1") (Some (Sample.patient "1990")))
       None "/patient/" ∅ (defaultFormValues "p1") (defaultFormValues "p1") None)
  = [ {| sb_kind := KindSuccess;
         sb_title := "New Patient Created";
         sb_subtitle :=
           "The patient can now be found by searching for them using their name or ID number";
         sb_isLowContrast := true |} ].
Proof.
  apply (proj1 (proj2 (proj2 (@submit_as_new_unless_loaded Demo.ui true (Some "p1")
                                (Some (Sample.patient "1990")) None "/patient/" ∅
                                (defaultFormValues "p1") (defaultFormValues "p1"))))).
  reflexivity.
Defined.

(** X15.  When [savePatientForm] rejects, the form never redirects and
    never reports success, and it leaves the submitting state at the end.
    The rejection is reported by one error snackbar per global error when
    the response carries global errors, by nobody when it carries an empty
    list of them, else by one snackbar with the message of the response,
    and it is handed to the error handler only when the response has
    neither.  When it resolves, the submitting state is not left. *)
Theorem submit_failure_reports `{UiCollaborators}
  (flag : option bool) (afterUrl : option string) (submitButton : string)
  (patientUuidMap : gmap string string) (initialValues values : FormValues)
  (error : SubmitError) :
  let failed :=
    onFormSubmit flag afterUrl submitButton patientUuidMap initialValues values
      (Some error) in
  let saved :=
    onFormSubmit flag afterUrl submitButton patientUuidMap initialValues values None in
  last failed = Some (SetSubmitting false) /\
  (forall url, ~ In (SetTarget url) failed) /\
  ~ In (ShowSnackbar (successSnackbar flag)) failed /\
  (forall errors,
     globalErrors error = Some errors ->
     snackbarsOf failed = map (fun e => errorSnackbar flag (ge_message e)) errors /\
     ~ In (CreateErrorHandler error) failed) /\
  (globalErrors error = Some [] ->
   failed
   = [ SetSubmitting true;
       SavePatientForm (flagNot flag)
         (withIdentifiers values
            (filterOutUndefinedPatientIdentifiers (identifiers values)))
         patientUuidMap (identifiers initialValues);
       SetSubmitting false ]) /\
  (forall message,
     globalErrors error = None -> errorMessage error = Some message -> message <> "" ->
     snackbarsOf failed = [errorSnackbar flag message] /\
     ~ In (CreateErrorHandler error) failed) /\
  (globalErrors error = None -> Js.truthy (errorMessage error) = false ->
   snackbarsOf failed = [] /\ In (CreateErrorHandler error) failed) /\
  ~ In (SetSubmitting false) saved.
Proof.
  intros failed saved. subst failed saved.
  split; [unfold onFormSubmit; rewrite app_assoc; apply last_snoc|].
  unfold onFormSubmit, reportSubmitError.
  assert (Hsnack : forall errors : list GlobalError,
            snackbarsOf
              (map (fun e => ShowSnackbar (errorSnackbar flag (ge_message e))) errors
               ++ [SetSubmitting false])
            = map (fun e => errorSnackbar flag (ge_message e)) errors).
  { intros errors.
    induction errors as [|e errors IH]; [reflexivity|].
    unfold snackbarsOf in *. simpl in *. now f_equal. }
  assert (Hno : forall (errors : list GlobalError) (x : UiEvent),
            (forall s, x <> ShowSnackbar s) -> x <> SetSubmitting false ->
            ~ In x (map (fun e => ShowSnackbar (errorSnackbar flag (ge_message e)))
                      errors ++ [SetSubmitting false])).
  { intros errors x Hx Hs Hin. apply in_app_or in Hin as [Hin|[Hin|[]]].
    - apply in_map_iff in Hin as (e & He & _). now apply (Hx _ (eq_sym He)).
    - now apply Hs. }
  assert (Hsuccess : forall errors : list GlobalError,
            ~ In (ShowSnackbar (successSnackbar flag))
                (map (fun e => ShowSnackbar (errorSnackbar flag (ge_message e)))
                   errors ++ [SetSubmitting false])).
  { intros errors Hin. apply in_app_or in Hin as [Hin|[Hin|[]]]; [|discriminate].
    apply in_map_iff in Hin as (e & He & _). discriminate He. }
  split; [|split; [|split; [|split; [|split; [|split]]]]].
  - intros url [Hin|[Hin|Hin]]; try discriminate.
    destruct (globalErrors error) as [errors|].
    + revert Hin. apply Hno; intros; discriminate.
    + destruct (Js.truthy (errorMessage error));
        cbn in Hin; intuition discriminate.
  - intros [Hin|[Hin|Hin]]; try discriminate.
    destruct (globalErrors error) as [errors|].
    + now apply (Hsuccess errors).
    + destruct (Js.truthy (errorMessage error));
        cbn in Hin; intuition discriminate.
  - intros errors ->. split.
    + cbn [app snackbarsOf omap]. apply Hsnack.
    + intros [Hin|[Hin|Hin]]; try discriminate.
      revert Hin. apply Hno; intros; discriminate.
  - intros ->. reflexivity.
  - intros message -> -> Hne. cbn. apply String.eqb_neq in Hne. rewrite Hne. cbn.
    split; [reflexivity|]. intuition discriminate.
  - intros -> ->. cbn. split; [reflexivity|]. auto.
  - cbn. intuition discriminate.
Qed.

Lemma submit_failure_reports_witness :
  snackbarsOf
    (@onFormSubmit Demo.ui (Some true) None "/patient/" ∅
       (defaultFormValues "p1") (defaultFormValues "p1")
       (Some {| globalErrors := None; errorMessage := Some "Identifier already in use" |}))
  = [@errorSnackbar Demo.ui (Some true) "Identifier already in use"].
Proof.
  apply (proj1 (proj2 (proj2 (proj2 (proj2 (proj2
           (@submit_failure_reports Demo.ui (Some true) None "/patient/" ∅
              (defaultFormValues "p1") (defaultFormValues "p1")
              {| globalErrors := None;
                 errorMessage := Some "Identifier already in use" |}))))))
           "Identifier already in use");
    [reflexivity | reflexivity | discriminate].
Defined.

(** ** The patient banner *)

(** X16.  The banner takes a patient for deceased when a death date is
    recorded, the actions menu when the [dead] flag is set: the two agree
    exactly when the flag and the presence of a death date agree.  For a
    patient flagged dead without a death date, with no visit and not from
    the master index, the banner shows the active style and offers to
    start a visit while the actions menu is told the patient is deceased. *)
Theorem banner_deceased_by_death_date `{UiCollaborators} (spaBase : string)
  (patient : SearchedPatient)
  (hideActionsOverflow isMPIPatient hasCurrentVisit showContactDetails : bool) :
  let view :=
    PatientBanner spaBase patient hideActionsOverflow isMPIPatient hasCurrentVisit
      showContactDetails in
  (hideActionsOverflow = false ->
   (actionsMenuDeceased view = Some (deceasedContainer view) <->
    person_dead (person patient) = Js.truthy (person_deathDate (person patient)))) /\
  (startVisitButton view = true -> deceasedContainer view = false) /\
  (person_dead (person patient) = true ->
   Js.truthy (person_deathDate (person patient)) = false ->
   hideActionsOverflow = false -> isMPIPatient = false -> hasCurrentVisit = false ->
   deceasedContainer view = false /\
   startVisitButton view = true /\
   actionsMenuDeceased view = Some true).
Proof.
  intros view. subst view. unfold PatientBanner.
  cbn [actionsMenuDeceased deceasedContainer startVisitButton].
  split; [|split].
  - intros ->. cbn [negb]. split; [now intros [= ->] | now intros ->].
  - destruct (Js.truthy (person_deathDate (person patient))); [discriminate | reflexivity].
  - intros -> -> -> -> ->. repeat split.
Qed.

Lemma banner_deceased_by_death_date_witness :
  let view := @PatientBanner Demo.ui "/openmrs/spa/" Demo.deadWithoutDate
                false false false false in
  deceasedContainer view = false /\
  startVisitButton view = true /\
  actionsMenuDeceased view = Some true.
Proof.
  apply (proj2 (proj2 (@banner_deceased_by_death_date Demo.ui "/openmrs/spa/"
                         Demo.deadWithoutDate false false false false)));
    reflexivity.
Defined.

(** ** From the banner to the registration form *)

Lemma list_ascii_of_string_app (a b : string) :
  list_ascii_of_string (a ++ b)
  = (list_ascii_of_string a ++ list_ascii_of_string b)%list.
Proof. induction a as [|c a IH]; [reflexivity|]. simpl. now rewrite IH. Qed.

Lemma takeUntil_app stop (l1 l2 : list ascii) :
  ~ In stop l1 -> Url.takeUntil stop (l1 ++ l2) = (l1 ++ Url.takeUntil stop l2)%list.
Proof.
  induction l1 as [|c l1 IH]; intros Hno; [reflexivity|].
  simpl. destruct (Ascii.eqb_spec c stop) as [->|Hne].
  - exfalso. apply Hno. now left.
  - rewrite IH; [reflexivity|]. intros Hin. apply Hno. now right.
Qed.

Lemma takeUntil_all stop (l : list ascii) : ~ In stop l -> Url.takeUntil stop l = l.
Proof.
  intros Hno. rewrite <- (app_nil_r l) at 1.
  rewrite takeUntil_app by assumption. apply app_nil_r.
Qed.

Lemma dropUntil_app stop (l1 l2 : list ascii) :
  ~ In stop l1 -> Url.dropUntil stop (l1 ++ l2) = Url.dropUntil stop l2.
Proof.
  induction l1 as [|c l1 IH]; intros Hno; [reflexivity|].
  simpl. destruct (Ascii.eqb_spec c stop) as [->|Hne].
  - exfalso. apply Hno. now left.
  - apply IH. intros Hin. apply Hno. now right.
Qed.

Lemma split_from_app sep (l1 l2 cur : list ascii) :
  ~ In sep l1 ->
  Str.split_from sep cur (l1 ++ sep :: l2)
  = ((cur ++ l1) :: Str.split_from sep [] l2)%list.
Proof.
  revert cur. induction l1 as [|c l1 IH]; intros cur Hno.
  - simpl. now rewrite Ascii.eqb_refl, app_nil_r.
  - simpl. destruct (Ascii.eqb_spec c sep) as [->|Hne].
    + exfalso. apply Hno. now left.
    + rewrite IH by (intros Hin; apply Hno; now right).
      now rewrite <- app_assoc.
Qed.

Lemma split_from_all sep (l cur : list ascii) :
  ~ In sep l -> Str.split_from sep cur l = [(cur ++ l)%list].
Proof.
  revert cur. induction l as [|c l IH]; intros cur Hno.
  - simpl. now rewrite app_nil_r.
  - simpl. destruct (Ascii.eqb_spec c sep) as [->|Hne].
    + exfalso. apply Hno. now left.
    + rewrite IH by (intros Hin; apply Hno; now right).
      now rewrite <- app_assoc.
Qed.

Lemma unreserved_plain (c : ascii) :
  Url.unreserved c = true ->
  c <> "&"%char /\ c <> "#"%char /\ c <> "+"%char /\ c <> "%"%char /\
  c <> "="%char /\ c <> "?"%char.
Proof.
  destruct c as [[] [] [] [] [] [] [] []]; vm_compute; intros Hc;
    first [discriminate Hc | repeat split; discriminate].
Qed.

Lemma unreserved_without (l : list ascii) (x : ascii) :
  Forall (fun c => Url.unreserved c = true) l ->
  In x ["&"; "#"; "+"; "%"; "="; "?"]%char -> ~ In x l.
Proof.
  intros Hall Hx Hin.
  apply (proj1 (List.Forall_forall _ _) Hall), unreserved_plain in Hin.
  simpl in Hx. intuition congruence.
Qed.

Lemma decode_plain (l : list ascii) :
  ~ In "+"%char l -> ~ In "%"%char l -> Url.decode l = l.
Proof.
  unfold Url.decode. induction l as [|c l IH]; intros Hplus Hpercent; [reflexivity|].
  cbn [map Url.percentDecode].
  destruct (Ascii.eqb_spec c "+") as [->|H1]; [exfalso; apply Hplus; now left|].
  destruct (Ascii.eqb_spec c "%") as [->|H2]; [exfalso; apply Hpercent; now left|].
  f_equal. apply IH; intros Hin; [apply Hplus | apply Hpercent]; now right.
Qed.

(** The query of the URL the banner builds, for an identifier whose first
    part is plain and which either ends there or goes on after an [&]. *)
Lemma sourceRecord_of_query (base value more : list ascii) :
  ~ In "?"%char base -> ~ In "#"%char base ->
  Forall (fun c => Url.unreserved c = true) value ->
  ~ In "#"%char more ->
  (more = [] \/ exists rest, more = "&"%char :: rest) ->
  sourcePatientId
    (Url.search
       (base ++ list_ascii_of_string "patient-registration?sourceRecord="
        ++ value ++ more)%list)
  = Some (string_of_list_ascii value).
Proof.
  intros Hq Hh Hvalue Hmore Hshape.
  pose proof (unreserved_without value) as Hwithout.
  assert (Hno : forall x, In x ["&"; "#"; "+"; "%"; "="; "?"]%char -> ~ In x value)
    by (intros x Hx; now apply Hwithout).
  unfold Url.search.
  rewrite takeUntil_all.
  2:{ intros Hin. apply in_app_or in Hin as [Hin|Hin]; [now apply Hh|].
      apply in_app_or in Hin as [Hin|Hin];
        [simpl in Hin; intuition discriminate|].
      apply in_app_or in Hin as [Hin|Hin]; [|now apply Hmore].
      revert Hin. apply Hno. simpl. tauto. }
  rewrite dropUntil_app by assumption.
  cbn [list_ascii_of_string app Url.dropUntil Ascii.eqb Bool.eqb].
  unfold sourcePatientId, Url.get, Url.params.
  change (list_ascii_of_string "sourceRecord")
    with ["s"; "o"; "u"; "r"; "c"; "e"; "R"; "e"; "c"; "o"; "r"; "d"]%char.
  set (name := ["s"; "o"; "u"; "r"; "c"; "e"; "R"; "e"; "c"; "o"; "r"; "d"]%char).
  assert (Hpiece : Url.pairOf ((name ++ ["="%char]) ++ value) = (name, value)).
  { unfold Url.pairOf.
    assert (H1 : Url.takeUntil "=" ((name ++ ["="%char]) ++ value) = name)
      by reflexivity.
    assert (H2 : tl (Url.dropUntil "=" ((name ++ ["="%char]) ++ value)) = value)
      by reflexivity.
    rewrite H1, H2.
    rewrite (decode_plain value) by (apply Hno; simpl; tauto).
    assert (H3 : Url.decode name = name) by (vm_compute; reflexivity).
    now rewrite H3. }
  assert (Hsplit : exists pieces,
            Str.split_from "&" []
              ("s" :: "o" :: "u" :: "r" :: "c" :: "e" :: "R" :: "e" :: "c" :: "o"
               :: "r" :: "d" :: "=" :: value ++ more)%char%list
            = ((name ++ ["="%char]) ++ value)%list :: pieces).
  { change ("s" :: "o" :: "u" :: "r" :: "c" :: "e" :: "R" :: "e" :: "c" :: "o"
            :: "r" :: "d" :: "=" :: value ++ more)%char%list
      with (((name ++ ["="%char]) ++ value) ++ more)%list.
    assert (Hamp : ~ In "&"%char ((name ++ ["="%char]) ++ value)).
    { intros Hin. apply in_app_or in Hin as [Hin|Hin].
      - unfold name in Hin. simpl in Hin. intuition discriminate.
      - revert Hin. apply Hno. simpl. tauto. }
    destruct Hshape as [->|[rest ->]].
    - exists []. rewrite app_nil_r. now rewrite split_from_all.
    - eexists. now rewrite split_from_app. }
  destruct Hsplit as [pieces Hsplit].
  match goal with
  | |- context [Str.split_from "&" [] ?q] =>
      replace (Str.split_from "&" [] q) with (((name ++ ["="%char]) ++ value)%list :: pieces)
  end.
  cbn [List.filter].
  assert (Hlen : Nat.eqb (length ((name ++ ["="%char]) ++ value)) 0 = false)
    by reflexivity.
  rewrite Hlen. cbn [negb map Url.lookup]. rewrite Hpiece.
  rewrite bool_decide_eq_true_2 by reflexivity. reflexivity.
Qed.

(** X17.  The identifier the banner puts into the URL of its "Create
    Patient Record" button is the [sourceRecord] the registration form
    reads back, when it is made of letters, digits, [-], [.], [_] and [~]
    and the base path has neither [?] nor [#].  The banner does not
    encode it: of an identifier with an [&] in it the form reads only the
    part before the [&]. *)
Theorem source_record_round_trip (spaBase externalId : string) :
  ~ In "?"%char (list_ascii_of_string spaBase) ->
  ~ In "#"%char (list_ascii_of_string spaBase) ->
  (Forall (fun c => Url.unreserved c = true) (list_ascii_of_string externalId) ->
   sourcePatientId
     (Url.search (list_ascii_of_string (createPatientRecordUrl spaBase externalId)))
   = Some externalId) /\
  (forall first second,
     externalId = first ++ "&" ++ second ->
     Forall (fun c => Url.unreserved c = true) (list_ascii_of_string first) ->
     Forall (fun c => Url.unreserved c = true) (list_ascii_of_string second) ->
     sourcePatientId
       (Url.search (list_ascii_of_string (createPatientRecordUrl spaBase externalId)))
     = Some first).
Proof.
  intros Hq Hh. unfold createPatientRecordUrl.
  rewrite !list_ascii_of_string_app. split.
  - intros Hsafe.
    rewrite <- (app_nil_r (list_ascii_of_string externalId)).
    rewrite (sourceRecord_of_query _ _ [] Hq Hh Hsafe); auto.
    now rewrite string_of_list_ascii_of_string.
  - intros first second -> Hfirst Hsecond.
    rewrite !list_ascii_of_string_app.
    rewrite (sourceRecord_of_query _ _ _ Hq Hh Hfirst).
    + now rewrite string_of_list_ascii_of_string.
    + cbn. intros [Hin|Hin]; [discriminate|].
      revert Hin. apply unreserved_without; [exact Hsecond | simpl; tauto].
    + right. eexists. reflexivity.
Qed.

Lemma source_record_round_trip_witness :
  sourcePatientId
    (Url.search
       (list_ascii_of_string
          (createPatientRecordUrl "/openmrs/spa/" "b2f9c1de-77a0-4c1e-9f56-0a1c3e5d7f42")))
  = Some "b2f9c1de-77a0-4c1e-9f56-0a1c3e5d7f42".
Proof.
  apply (proj1 (source_record_round_trip "/openmrs/spa/"
                  "b2f9c1de-77a0-4c1e-9f56-0a1c3e5d7f42"
                  ltac:(vm_compute; intuition discriminate)
                  ltac:(vm_compute; intuition discriminate))).
  repeat constructor.
Defined.

(** ** What the merges leave alone *)

(** X18.  The death-info, relationships, identifiers, attributes and
    encounter effects never change the patient uuid, the names, gender,
    birthdate and its estimates, the telephone number or the address:
    after any number of them, in any order, these keys are as before. *)
Theorem merges_keep_demographics `{Collaborators} (src : Sources)
  (order : list Effect) (fv : FormValues) :
  ~ In CoreRecord order ->
  demographicsOf (runEffects src order fv) = demographicsOf fv.
Proof.
  unfold runEffects. revert fv.
  induction order as [|e order IH]; intros fv Hno; [reflexivity|].
  simpl. rewrite IH by (intros Hin; apply Hno; now right).
  destruct e; [exfalso; apply Hno; now left| | | | |];
    unfold runEffect, deathInfoEffect, relationshipsEffect, identifiersEffect,
      attributesEffect, encountersEffect;
    destruct (useInitialPersonDeathInfo src) as [[info|] l1];
    destruct (useInitialPatientIdentifiers src) as [ids l2];
    destruct (useInitialPersonAttributes src) as [[attrs|] l3];
    destruct (relationshipsData src) as [rels|];
    destruct (patientToEdit src) as [p|];
    destruct (useInitialEncounters src) as [encounters|];
    try reflexivity;
    repeat match goal with
           | |- context [if ?c then _ else _] => destruct c
           end;
    reflexivity.
Qed.

Lemma merges_keep_demographics_witness :
  demographicsOf
    (@runEffects Sample.collaborators Sample.resolved
       [Identifiers; DeathInfo; Encounters; Attributes; Relationships]
       (defaultFormValues "u"))
  = demographicsOf (defaultFormValues "u").
Proof.
  apply (@merges_keep_demographics Sample.collaborators Sample.resolved
           [Identifiers; DeathInfo; Encounters; Attributes; Relationships]
           (defaultFormValues "u")).
  simpl. intuition discriminate.
Defined.

(** ** The time of death *)

(** X19.  When the death information of a deceased person is merged, a
    missing or empty death date leaves [deathDate] and [deathTime]
    undefined with the format ["AM"]; otherwise [deathDate] is the parsed
    date, [deathTime] its [hh:mm] text, and the format is ["PM"] exactly
    when dayjs reads an hour of 12 or more (never for an invalid date,
    whose hour is [NaN]). *)
Theorem death_time_of_day `{Collaborators} (src : Sources) (fv : FormValues)
  (info : DeathInfoResults) :
  useInitialPersonDeathInfo src = (Some info, false) ->
  dead info = true ->
  (Js.truthy (di_deathDate info) = false ->
   deathDate (deathInfoEffect src fv) = None /\
   deathTime (deathInfoEffect src fv) = None /\
   deathTimeFormat (deathInfoEffect src fv) = AM) /\
  (forall stamp,
     di_deathDate info = Some stamp -> stamp <> "" ->
     deathDate (deathInfoEffect src fv) = Some (Date_new stamp) /\
     deathTime (deathInfoEffect src fv) = Some (dayjs_format_hhmm (Date_new stamp)) /\
     (deathTimeFormat (deathInfoEffect src fv) = PM <->
      exists hour, dayjs_hour (Date_new stamp) = Js.Int hour /\ 12 <= hour)).
Proof.
  intros Hinfo Hdead. unfold deathInfoEffect. rewrite Hinfo, Hdead. cbn [negb andb].
  cbn [deathDate deathTime deathTimeFormat withDeathInfo].
  split.
  - intros ->. repeat split.
  - intros stamp -> Hne. cbn [Js.truthy].
    apply String.eqb_neq in Hne. rewrite Hne. cbn [negb option_map].
    split; [reflexivity|]. split; [reflexivity|].
    unfold hourIsPM.
    destruct (dayjs_hour (Date_new stamp)) as [hour|].
    + destruct (Z.leb_spec 12 hour) as [Hle|Hlt].
      * split; [intros _; eauto | reflexivity].
      * split; [discriminate | intros (h & [= <-] & Hh); lia].
    + split; [discriminate | intros (h & Hh & _); discriminate].
Qed.

Lemma death_time_of_day_witness :
  let merged :=
    @deathInfoEffect Sample.collaborators (Sample.deceased (Some Sample.malaria) None)
      (defaultFormValues "u") in
  deathDate merged = Some (Some 1700000000000) /\
  deathTime merged = Some "10:13" /\
  (deathTimeFormat merged = PM <->
   exists hour, Js.Int 22 = Js.Int hour /\ 12 <= hour).
Proof.
  apply (proj2 (@death_time_of_day Sample.collaborators
                  (Sample.deceased (Some Sample.malaria) None) (defaultFormValues "u")
                  (Sample.deathInfo (Some Sample.malaria) None) eq_refl eq_refl)
           "2023-11-14T22:13:20.000+0000");
    [reflexivity | discriminate].
Defined.
